(** * Weather ETL pipeline (dags/etl_weather_.py): model and properties

    The five tasks of the DAG are embedded as functions over explicit
    state: the configuration store, the forecast API, the weather table and
    the clock are inputs or oracles, exceptions are values of [result], and
    every [try ... except Exception] of the source is a [try_except]. *)

From Stdlib Require Import ZArith QArith Qround Qabs List String Ascii Bool Lia Lqa.
From Stdlib Require Import Numbers.DecimalString.
From Stdlib Require Qcanon.
Import ListNotations.

Local Open Scope Z_scope.

(** ** Python values, exceptions and dicts *)

Module Py.

(** The exception classes the pipeline can meet; all derive from Exception. *)
Inductive exn : Type :=
| KeyError | IndexError | TypeError | AttributeError | ValueError
| OverflowError | TransportError | DatabaseError.

Inductive result (A : Type) : Type :=
| Ok (a : A)
| Raise (e : exn).
Arguments Ok {A} a.
Arguments Raise {A} e.

Definition bind {A B} (m : result A) (k : A -> result B) : result B :=
  match m with
  | Ok a => k a
  | Raise e => Raise e
  end.

(** try: body / except Exception as e: handler e *)
Definition try_except {A} (body : result A) (handler : exn -> result A) : result A :=
  match body with
  | Ok a => Ok a
  | Raise e => handler e
  end.

(** A JSON document as Python sees it after response.json(). *)
#[local] Set Warnings "-register-all".
Inductive pyval : Type :=
| PNone
| PBool (b : bool)
| PInt (z : Z)
| PFloat (q : Q)
| PStr (s : string)
| PList (l : list pyval)
| PDict (d : list (string * pyval)).

(** An insertion-ordered dict with string keys. *)
Definition dict (V : Type) : Type := list (string * V).

Fixpoint dict_get {V} (d : dict V) (k : string) : option V :=
  match d with
  | [] => None
  | (k', v) :: d' => if String.eqb k' k then Some v else dict_get d' k
  end.

(** [d[k] = v]: an existing key keeps its position, a new key goes last. *)
Fixpoint dict_set {V} (d : dict V) (k : string) (v : V) : dict V :=
  match d with
  | [] => [(k, v)]
  | (k', v') :: d' =>
      if String.eqb k' k then (k', v) :: d' else (k', v') :: dict_set d' k v
  end.

Definition keys {V} (d : dict V) : list string := map fst d.

(** bool(v) *)
Definition truthy (v : pyval) : bool :=
  match v with
  | PNone => false
  | PBool b => b
  | PInt z => negb (z =? 0)
  | PFloat q => negb (Qeq_bool q 0)
  | PStr s => negb (String.eqb s EmptyString)
  | PList l => match l with [] => false | _ => true end
  | PDict d => match d with [] => false | _ => true end
  end.

(** obj.get(k): only a dict has the method. *)
Definition py_get (obj : pyval) (k : string) : result pyval :=
  match obj with
  | PDict d => Ok (match dict_get d k with Some v => v | None => PNone end)
  | _ => Raise AttributeError
  end.

(** obj.get(k, default) *)
Definition py_get_default (obj : pyval) (k : string) (default : pyval) : result pyval :=
  match obj with
  | PDict d => Ok (match dict_get d k with Some v => v | None => default end)
  | _ => Raise AttributeError
  end.

(** obj[k] for a string key *)
Definition py_getitem (obj : pyval) (k : string) : result pyval :=
  match obj with
  | PDict d => match dict_get d k with Some v => Ok v | None => Raise KeyError end
  | _ => Raise TypeError
  end.

(** len(obj) *)
Definition py_len (obj : pyval) : result Z :=
  match obj with
  | PStr s => Ok (Z.of_nat (String.length s))
  | PList l => Ok (Z.of_nat (List.length l))
  | PDict d => Ok (Z.of_nat (List.length d))
  | _ => Raise TypeError
  end.

(** obj[0] *)
Definition py_index0 (obj : pyval) : result pyval :=
  match obj with
  | PList [] => Raise IndexError
  | PList (x :: _) => Ok x
  | PStr EmptyString => Raise IndexError
  | PStr (String c _) => Ok (PStr (String c EmptyString))
  | PDict _ => Raise KeyError
  | _ => Raise TypeError
  end.

(** s.replace('Z', '+00:00') on a str *)
Fixpoint replace_Z (s : string) : string :=
  match s with
  | EmptyString => EmptyString
  | String c s' =>
      if Ascii.eqb c "Z" then ("+00:00" ++ replace_Z s')%string
      else String c (replace_Z s')
  end.

(** obj.replace('Z', '+00:00'): only a str has the method. *)
Definition py_replace_Z (obj : pyval) : result string :=
  match obj with
  | PStr s => Ok (replace_Z s)
  | _ => Raise AttributeError
  end.

Fixpoint contains_char (c : ascii) (s : string) : bool :=
  match s with
  | EmptyString => false
  | String c' s' => Ascii.eqb c' c || contains_char c s'
  end.

Definition is_str_T (v : pyval) : bool :=
  match v with
  | PStr s => String.eqb s "T"
  | _ => false
  end.

(** 'T' in obj *)
Definition py_contains_T (obj : pyval) : result bool :=
  match obj with
  | PStr s => Ok (contains_char "T" s)
  | PList l => Ok (existsb is_str_T l)
  | PDict d => Ok (match dict_get d "T" with Some _ => true | None => false end)
  | _ => Raise TypeError
  end.

(** str(n) for an int *)
Definition str_of_int (n : Z) : string := NilZero.string_of_int (Z.to_int n).

(** s.replace(' ', '_'); strings are UTF-8 here, where the byte 32 is a
    space and nothing else. *)
Fixpoint replace_space (s : string) : string :=
  match s with
  | EmptyString => EmptyString
  | String c s' => String (if Ascii.eqb c " " then "_"%char else c) (replace_space s')
  end.

(** name.lower().replace(' ', '_'), where [lower] is str.lower: it knows
    the case mappings of all of Unicode and is a function of the
    interpreter, so it is taken as a parameter. *)
Definition slug_of (lower : string -> string) (s : string) : string :=
  replace_space (lower s).

(** What str.lower does to text that is ASCII throughout: A-Z go to a-z
    and every other character stays.  It is not str.lower on other text;
    it is used below as the interpreter's str.lower only on ASCII names. *)
Definition lower_ascii (c : ascii) : ascii :=
  let n := nat_of_ascii c in
  if (Nat.leb 65 n && Nat.leb n 90)%bool then ascii_of_nat (n + 32) else c.

Fixpoint ascii_lower (s : string) : string :=
  match s with
  | EmptyString => EmptyString
  | String c s' => String (lower_ascii c) (ascii_lower s')
  end.

(** Every character of [s] is ASCII. *)
Fixpoint is_ascii (s : string) : bool :=
  match s with
  | EmptyString => true
  | String c s' => (Nat.ltb (nat_of_ascii c) 128 && is_ascii s')%bool
  end.

End Py.
Import Py.

Notation "x <- m ;; k" := (bind m (fun x => k))
  (at level 61, m at next level, right associativity).

(** ** The datetime library, as far as the pipeline uses it

    [datetime] carries the wall-clock fields and an optional UTC offset (in
    microseconds); a naive value has [tzinfo = None].  Years run from 1 to
    9999 and arithmetic leaving that range raises OverflowError. *)

Module Datetime.

Record datetime : Type := mkdt {
  year : Z; month : Z; day : Z;
  hour : Z; minute : Z; second : Z; microsecond : Z;
  tzinfo : option Z
}.

Definition is_leap (y : Z) : bool :=
  ((y mod 4 =? 0) && (negb (y mod 100 =? 0) || (y mod 400 =? 0)))%bool.

Definition days_in_month (y m : Z) : Z :=
  if m =? 2 then (if is_leap y then 29 else 28)
  else if (m =? 4) || (m =? 6) || (m =? 9) || (m =? 11) then 30
  else 31.

(** Days before January 1st of year [y]. *)
Definition days_before_year (y : Z) : Z :=
  let p := y - 1 in p * 365 + p / 4 - p / 100 + p / 400.

(** Days in year [y] before the first day of month [m]. *)
Definition days_before_month (y m : Z) : Z :=
  let common :=
    nth (Z.to_nat (m - 1)) [0; 31; 59; 90; 120; 151; 181; 212; 243; 273; 304; 334] 0 in
  if (2 <? m) && is_leap y then common + 1 else common.

(** Proleptic Gregorian ordinal, 0001-01-01 being day 1. *)
Definition ymd2ord (y m d : Z) : Z :=
  days_before_year y + days_before_month y m + d.

Definition DI400Y : Z := 146097.
Definition DI100Y : Z := 36524.
Definition DI4Y : Z := 1461.

(** The inverse of [ymd2ord]. *)
Definition ord2ymd (ord : Z) : Z * Z * Z :=
  let n := ord - 1 in
  let n400 := n / DI400Y in
  let n := n mod DI400Y in
  let n100 := n / DI100Y in
  let n := n mod DI100Y in
  let n4 := n / DI4Y in
  let n := n mod DI4Y in
  let n1 := n / 365 in
  let n := n mod 365 in
  let y := n400 * 400 + 1 + n100 * 100 + n4 * 4 + n1 in
  if (n1 =? 4) || (n100 =? 4) then (y - 1, 12, 31)
  else
    let m := (n + 50) / 32 in
    let m := if n <? days_before_month y m then m - 1 else m in
    (y, m, n - days_before_month y m + 1).

Definition US_PER_SECOND : Z := 1000000.
Definition US_PER_DAY : Z := 86400 * US_PER_SECOND.
Definition MAXORDINAL : Z := 3652059.

(** Microseconds of the wall-clock reading since 0001-01-01T00:00:00. *)
Definition wall_us (dt : datetime) : Z :=
  (ymd2ord (year dt) (month dt) (day dt) - 1) * US_PER_DAY
  + ((hour dt * 60 + minute dt) * 60 + second dt) * US_PER_SECOND
  + microsecond dt.

(** The datetime whose wall clock reads [us]; out of range is an error. *)
Definition of_wall_us (us : Z) (tz : option Z) : result datetime :=
  if (us <? 0) || (MAXORDINAL * US_PER_DAY <=? us) then Raise OverflowError
  else
    let '(y, m, d) := ord2ymd (us / US_PER_DAY + 1) in
    let r := us mod US_PER_DAY in
    let s := r / US_PER_SECOND in
    Ok (mkdt y m d (s / 3600) ((s / 60) mod 60) (s mod 60) (r mod US_PER_SECOND) tz).

(** The physical instant of an aware datetime, in microseconds of UTC. *)
Definition instant (dt : datetime) : Z :=
  wall_us dt - match tzinfo dt with Some off => off | None => 0 end.

(** dt.astimezone(timezone.utc) for an aware [dt] *)
Definition astimezone_utc (dt : datetime) : result datetime :=
  of_wall_us (instant dt) (Some 0).

(** dt.astimezone() for an aware [dt]: the process's zone has offset
    [local_utcoffset u] at the UTC reading [u]. *)
Definition astimezone_local (local_utcoffset : Z -> Z) (dt : datetime) : result datetime :=
  u <- of_wall_us (instant dt) (Some 0) ;;
  let off := local_utcoffset (wall_us u) in
  of_wall_us (wall_us u + off) (Some off).

(** dt.replace(tzinfo=tz) *)
Definition replace_tzinfo (dt : datetime) (tz : option Z) : datetime :=
  mkdt (year dt) (month dt) (day dt) (hour dt) (minute dt) (second dt)
       (microsecond dt) tz.

Definition two_digits (n : Z) : string :=
  if n <? 10 then ("0" ++ str_of_int n)%string else str_of_int n.

(** dt.time().strftime('%H:%M:%S') *)
Definition time_strftime_HMS (dt : datetime) : string :=
  (two_digits (hour dt) ++ ":" ++ two_digits (minute dt) ++ ":"
   ++ two_digits (second dt))%string.

(** *** datetime.fromisoformat on the common grammar

    The grammar every CPython release since 3.7 accepts:
    YYYY-MM-DD[*HH[:MM[:SS[.fff[fff]]]][+HH:MM[:SS[.ffffff]]]], where * is
    any single character.  Later releases accept further ISO-8601 forms;
    the pipeline below takes the parser of its interpreter as a parameter,
    and this one serves where a concrete interpreter is needed. *)

Definition digit_val (c : ascii) : option Z :=
  let n := nat_of_ascii c in
  if (Nat.leb 48 n && Nat.leb n 57)%bool then Some (Z.of_nat (n - 48)) else None.

Fixpoint digits_val (acc : Z) (l : list ascii) : option Z :=
  match l with
  | [] => Some acc
  | c :: l' =>
      match digit_val c with
      | Some d => digits_val (acc * 10 + d) l'
      | None => None
      end
  end.

Definition is_colon (c : ascii) : bool := Ascii.eqb c ":".
Definition is_dash (c : ascii) : bool := Ascii.eqb c "-".

(** HH[:MM[:SS[.fff[fff]]]] as (hours, minutes, seconds, microseconds) *)
Definition parse_hh_mm_ss_ff (l : list ascii) : option (Z * Z * Z * Z) :=
  match l with
  | [h1; h2] =>
      match digits_val 0 [h1; h2] with
      | Some h => Some (h, 0, 0, 0)
      | None => None
      end
  | [h1; h2; c1; m1; m2] =>
      match digits_val 0 [h1; h2], digits_val 0 [m1; m2] with
      | Some h, Some m => if is_colon c1 then Some (h, m, 0, 0) else None
      | _, _ => None
      end
  | h1 :: h2 :: c1 :: m1 :: m2 :: c2 :: s1 :: s2 :: rest =>
      match digits_val 0 [h1; h2], digits_val 0 [m1; m2], digits_val 0 [s1; s2] with
      | Some h, Some m, Some s =>
          if (is_colon c1 && is_colon c2)%bool then
            match rest with
            | [] => Some (h, m, s, 0)
            | dot :: frac =>
                if Ascii.eqb dot "." then
                  match digits_val 0 frac with
                  | Some f =>
                      if Nat.eqb (List.length frac) 3 then Some (h, m, s, f * 1000)
                      else if Nat.eqb (List.length frac) 6 then Some (h, m, s, f)
                      else None
                  | None => None
                  end
                else None
            end
          else None
      | _, _, _ => None
      end
  | _ => None
  end.

(** Cut the time string at its first sign: the clock part, and the sign
    ([true] for minus) with the offset part when there is one. *)
Fixpoint split_tz (l : list ascii) : list ascii * option (bool * list ascii) :=
  match l with
  | [] => ([], None)
  | c :: l' =>
      if Ascii.eqb c "+" then ([], Some (false, l'))
      else if Ascii.eqb c "-" then ([], Some (true, l'))
      else let '(t, z) := split_tz l' in (c :: t, z)
  end.

(** The offset HH:MM[:SS[.ffffff]] as signed microseconds; timezone()
    wants it strictly between -24h and +24h. *)
Definition parse_tz (negative : bool) (l : list ascii) : option Z :=
  let n := List.length l in
  if (Nat.eqb n 5 || Nat.eqb n 8 || Nat.eqb n 15)%bool then
    match parse_hh_mm_ss_ff l with
    | Some (h, m, s, f) =>
        let td := ((h * 60 + m) * 60 + s) * US_PER_SECOND + f in
        if td <? US_PER_DAY then Some (if negative then - td else td) else None
    | None => None
    end
  else None.

(** The datetime constructor's range checks. *)
Definition valid_fields (y mo d h mi s : Z) : bool :=
  ((1 <=? y) && (y <=? 9999) && (1 <=? mo) && (mo <=? 12)
   && (1 <=? d) && (d <=? days_in_month y mo)
   && (h <=? 23) && (mi <=? 59) && (s <=? 59))%bool.

Definition parse_isoformat (l : list ascii) : option datetime :=
  match l with
  | y1 :: y2 :: y3 :: y4 :: c1 :: m1 :: m2 :: c2 :: d1 :: d2 :: rest =>
      match digits_val 0 [y1; y2; y3; y4], digits_val 0 [m1; m2], digits_val 0 [d1; d2] with
      | Some y, Some mo, Some d =>
          if (is_dash c1 && is_dash c2)%bool then
            match rest with
            | [] => if valid_fields y mo d 0 0 0 then Some (mkdt y mo d 0 0 0 0 None) else None
            | _sep :: tstr =>
                let '(clock, zone) := split_tz tstr in
                match parse_hh_mm_ss_ff clock with
                | Some (h, mi, s, f) =>
                    if valid_fields y mo d h mi s then
                      match zone with
                      | None => Some (mkdt y mo d h mi s f None)
                      | Some (negative, z) =>
                          match parse_tz negative z with
                          | Some off => Some (mkdt y mo d h mi s f (Some off))
                          | None => None
                          end
                      end
                    else None
                | None => None
                end
            end
          else None
      | _, _, _ => None
      end
  | _ => None
  end.

Definition fromisoformat_common (s : string) : result datetime :=
  match parse_isoformat (list_ascii_of_string s) with
  | Some dt => Ok dt
  | None => Raise ValueError
  end.

End Datetime.
Import Datetime.

Arguments fromisoformat_common : simpl never.
Arguments of_wall_us : simpl never.
Arguments astimezone_utc : simpl never.
Arguments astimezone_local : simpl never.

(** ** Shared pipeline types *)

Inductive log_level : Type := INFO | WARNING | ERROR.

(** One logging call: the level, the fixed text and the value interpolated. *)
Record log_entry : Type := mklog {
  level : log_level;
  text : string;
  subject : string
}.

(** Run [f] over [l] from left to right, threading the state; the first
    exception that escapes [f] ends the loop. *)
Fixpoint for_each {S A} (f : S -> A -> result S) (l : list A) (s : S) : result S :=
  match l with
  | [] => Ok s
  | a :: l' => s' <- f s a ;; for_each f l' s'
  end.

(** A location as the provider builds it; a NULL column stays None. *)
Record Location : Type := mkloc {
  name : string;
  country : option string;
  lat : Q;
  lon : Q;
  timezone : option string
}.

Definition DEFAULT_LOCATIONS : dict Location :=
  [ ("london"%string,
     mkloc "London" (Some "United Kingdom"%string) (515074 # 10000) (-1278 # 10000)
           (Some "Europe/London"%string));
    ("new_york"%string,
     mkloc "New York" (Some "United States"%string) (407128 # 10000) (-740060 # 10000)
           (Some "America/New_York"%string));
    ("tokyo"%string,
     mkloc "Tokyo" (Some "Japan"%string) (356762 # 10000) (1396503 # 10000)
           (Some "Asia/Tokyo"%string));
    ("sydney"%string,
     mkloc "Sydney" (Some "Australia"%string) (-338688 # 10000) (1512093 # 10000)
           (Some "Australia/Sydney"%string));
    ("paris"%string,
     mkloc "Paris" (Some "France"%string) (488566 # 10000) (23522 # 10000)
           (Some "Europe/Paris"%string)) ].

(** ** get_active_locations *)

(** A row of SELECT city_name, country, latitude, longitude, timezone
    FROM cities_config WHERE is_active = TRUE; every column may be NULL. *)
Record ConfigRow : Type := mkrow {
  row_city_name : option string;
  row_country : option string;
  row_latitude : option Q;
  row_longitude : option Q;
  row_timezone : option string
}.

(** record[0].lower(): None has no such method. *)
Definition row_name (record : ConfigRow) : result string :=
  match row_city_name record with
  | Some s => Ok s
  | None => Raise AttributeError
  end.

(** float(x): None is not a number. *)
Definition py_float (x : option Q) : result Q :=
  match x with
  | Some q => Ok q
  | None => Raise TypeError
  end.

Definition add_location (lower : string -> string) (locations : dict Location)
    (record : ConfigRow) : result (dict Location) :=
  nm <- row_name record ;;
  let city_key := slug_of lower nm in
  la <- py_float (row_latitude record) ;;
  lo <- py_float (row_longitude record) ;;
  Ok (dict_set locations city_key
        (mkloc nm (row_country record) la lo (row_timezone record))).

(** [get_records] is what pg_hook.get_records(query) does: the rows, or the
    exception raised by the hook; [lower] is str.lower. *)
Definition get_active_locations (lower : string -> string)
    (get_records : result (list ConfigRow))
  : result (dict Location * list log_entry) :=
  try_except
    (records <- get_records ;;
     match records with
     | _ :: _ =>
         locations <- for_each (add_location lower) records [] ;;
         Ok (locations,
             [mklog INFO "Retrieved active locations from database"
                    (str_of_int (Z.of_nat (List.length locations)))])
     | [] =>
         Ok (DEFAULT_LOCATIONS,
             [mklog WARNING "No active locations found in database, using defaults" ""])
     end)
    (fun e =>
       Ok (DEFAULT_LOCATIONS,
           [mklog ERROR "Error fetching locations from database" "";
            mklog INFO "Falling back to default locations" ""])).

(** ** extract_weather_data *)

Definition CURRENT_FIELDS : list string :=
  [ "temperature_2m"; "relative_humidity_2m"; "apparent_temperature"; "is_day";
    "precipitation"; "rain"; "showers"; "snowfall"; "weather_code"; "cloud_cover";
    "pressure_msl"; "surface_pressure"; "wind_speed_10m"; "wind_direction_10m";
    "wind_gusts_10m" ]%string.

Definition DAILY_FIELDS : list string := [ "sunrise"; "sunset"; "uv_index_max" ]%string.

(** The query of GET /v1/forecast, parameter by parameter. *)
Record Endpoint : Type := mkendpoint {
  ep_latitude : Q;
  ep_longitude : Q;
  ep_current : list string;
  ep_daily : list string;
  ep_timezone : option string;
  ep_forecast_days : Z
}.

Definition endpoint_of (location : Location) : Endpoint :=
  mkendpoint (lat location) (lon location) CURRENT_FIELDS DAILY_FIELDS
             (timezone location) 1.

(** What http_hook.run(endpoint) does: raise, or answer with a status code
    and a body that response.json() decodes or rejects. *)
Inductive http_outcome : Type :=
| HttpRaises (e : exn)
| HttpResponse (status_code : Z) (json : result pyval).

Record RawObservation : Type := mkraw {
  raw_location : Location;
  raw_current : pyval;
  raw_daily : pyval;
  raw_api_response : pyval
}.

Record FetchState : Type := mkfetch {
  weather_data : dict RawObservation;
  requests_sent : list Endpoint;
  fetch_log : list log_entry
}.

(** The try block of one iteration; [http_run n ep] is the outcome of the
    n-th call (counting from 0) of the run. *)
Definition fetch_try (http_run : nat -> Endpoint -> http_outcome)
    (st : FetchState) (city_key : string) (location : Location) : result FetchState :=
  let endpoint := endpoint_of location in
  let sent := (requests_sent st ++ [endpoint])%list in
  match http_run (List.length (requests_sent st)) endpoint with
  | HttpRaises e => Raise e
  | HttpResponse status_code json =>
      if status_code =? 200 then
        api_data <- json ;;
        current <- py_get_default api_data "current" (PDict []) ;;
        daily <- py_get_default api_data "daily" (PDict []) ;;
        Ok (mkfetch
              (dict_set (weather_data st) city_key (mkraw location current daily api_data))
              sent
              (fetch_log st ++ [mklog INFO "Successfully extracted weather data" (name location)]))
      else
        Ok (mkfetch (weather_data st) sent
              (fetch_log st ++ [mklog ERROR "API request failed" (name location)]))
  end.

Definition fetch_step (http_run : nat -> Endpoint -> http_outcome)
    (st : FetchState) (item : string * Location) : result FetchState :=
  let '(city_key, location) := item in
  try_except (fetch_try http_run st city_key location)
    (fun e =>
       Ok (mkfetch (weather_data st) (requests_sent st ++ [endpoint_of location])
             (fetch_log st ++ [mklog ERROR "Error extracting weather data" (name location)]))).

Definition extract_weather_data (http_run : nat -> Endpoint -> http_outcome)
    (locations : dict Location) : result FetchState :=
  for_each (fetch_step http_run) locations (mkfetch [] [] []).

(** ** transform_weather_data *)

Definition weather_codes : list (Z * string) :=
  [ (0, "Clear sky"); (1, "Mainly clear"); (2, "Partly cloudy"); (3, "Overcast");
    (45, "Fog"); (48, "Depositing rime fog"); (51, "Light drizzle");
    (53, "Moderate drizzle"); (55, "Dense drizzle"); (56, "Light freezing drizzle");
    (57, "Dense freezing drizzle"); (61, "Slight rain"); (63, "Moderate rain");
    (65, "Heavy rain"); (66, "Light freezing rain"); (67, "Heavy freezing rain");
    (71, "Slight snow fall"); (73, "Moderate snow fall"); (75, "Heavy snow fall");
    (77, "Snow grains"); (80, "Slight rain showers"); (81, "Moderate rain showers");
    (82, "Violent rain showers"); (85, "Slight snow showers");
    (86, "Heavy snow showers"); (95, "Thunderstorm");
    (96, "Thunderstorm with slight hail"); (99, "Thunderstorm with heavy hail") ]%string.

Fixpoint codes_get (table : list (Z * string)) (code : Z) : option string :=
  match table with
  | [] => None
  | (k, v) :: table' => if k =? code then Some v else codes_get table' code
  end.

Definition unknown (shown : string) : string := ("Unknown (" ++ shown ++ ")")%string.

(** weather_codes.get(code, f"Unknown ({code})") for an int *)
Definition describe_int (code : Z) : string :=
  match codes_get weather_codes code with
  | Some d => d
  | None => unknown (str_of_int code)
  end.

(** weather_codes.get(weather_code, f"Unknown ({weather_code})") for any
    JSON value: True and False hash and compare as 1 and 0, a float with an
    integral value as that int, a list or a dict cannot be hashed;
    [float_repr] is str() on a float. *)
Definition describe_code (float_repr : Q -> string) (weather_code : pyval)
  : result string :=
  match weather_code with
  | PInt z => Ok (describe_int z)
  | PBool b =>
      Ok (match codes_get weather_codes (if b then 1 else 0) with
          | Some d => d
          | None => unknown (if b then "True" else "False")
          end)
  | PFloat q =>
      let r := Qred q in
      Ok (match (if (Qden r =? 1)%positive then codes_get weather_codes (Qnum r) else None) with
          | Some d => d
          | None => unknown (float_repr q)
          end)
  | PNone => Ok (unknown "None")
  | PStr s => Ok (unknown s)
  | PList _ | PDict _ => Raise TypeError
  end.

(** The interpreter and the machine the Normalizer runs on: the offset of
    the local zone that astimezone() converts to (at a UTC reading), str()
    on floats, and datetime.fromisoformat. *)
Record Host : Type := mkhost {
  local_utcoffset : Z -> Z;
  float_repr : Q -> string;
  fromisoformat : string -> result datetime
}.

(** The sunrise block (and, with the other key, the sunset block):
    if daily.get(key) and len(daily[key]) > 0:
        dt = datetime.fromisoformat(daily[key][0].replace('Z', '+00:00'))
        time = dt.time().strftime('%H:%M:%S') *)
Definition parse_sun_time (host : Host) (daily : pyval) (key : string)
  : result (option string) :=
  v <- py_get daily key ;;
  if truthy v then
    n <- (v1 <- py_getitem daily key ;; py_len v1) ;;
    if 0 <? n then
      first <- (v2 <- py_getitem daily key ;; py_index0 v2) ;;
      s <- py_replace_Z first ;;
      dt <- fromisoformat host s ;;
      Ok (Some (time_strftime_HMS dt))
    else Ok None
  else Ok None.

(** The body of the inner try: the pair (local_timestamp, utc_timestamp). *)
Definition parse_api_timestamp (host : Host)
    (current_local current_utc : datetime) (api_timestamp : pyval)
  : result (datetime * datetime) :=
  has_T <- py_contains_T api_timestamp ;;
  if has_T : bool then
    s <- py_replace_Z api_timestamp ;;
    parsed_timestamp <- fromisoformat host s ;;
    match tzinfo parsed_timestamp with
    | Some _ =>
        loc <- astimezone_local (local_utcoffset host) parsed_timestamp ;;
        let local_timestamp := replace_tzinfo loc None in
        utc_timestamp <- astimezone_utc parsed_timestamp ;;
        Ok (local_timestamp, utc_timestamp)
    | None =>
        Ok (parsed_timestamp, replace_tzinfo parsed_timestamp (Some 0))
    end
  else Ok (current_local, current_utc).

(** The timestamp block: the pair and the warnings it logs. *)
Definition resolve_timestamp (host : Host)
    (current_local current_utc : datetime) (api_timestamp : pyval)
  : (datetime * datetime) * list log_entry :=
  if truthy api_timestamp then
    match parse_api_timestamp host current_local current_utc api_timestamp with
    | Ok p => (p, [])
    | Raise e =>
        ((current_local, current_utc),
         [mklog WARNING "Failed to parse API timestamp" ""])
    end
  else ((current_local, current_utc), []).

Record WeatherRecord : Type := mkrecord {
  city_name : string;
  rec_country : option string;
  latitude : Q;
  longitude : Q;
  temperature : pyval;
  feels_like : pyval;
  humidity : pyval;
  pressure : pyval;
  windspeed : pyval;
  winddirection : pyval;
  visibility : pyval;
  uv_index : pyval;
  cloud_cover : pyval;
  weathercode : pyval;
  weather_description : string;
  sunrise : option string;
  sunset : option string;
  rec_timezone : option string;
  timestamp : datetime;
  timestamp_utc : datetime
}.

(** The try block of one iteration: the warnings logged on the way, and the
    record or the exception that ends the block. *)
Definition transform_try (host : Host) (current_local current_utc : datetime)
    (data : RawObservation) : list log_entry * result WeatherRecord :=
  let location := raw_location data in
  let current := raw_current data in
  let daily := raw_daily data in
  match
    (weather_code <- py_get_default current "weather_code" (PInt 0) ;;
     sunrise_time <- parse_sun_time host daily "sunrise" ;;
     sunset_time <- parse_sun_time host daily "sunset" ;;
     api_timestamp <- py_get current "time" ;;
     Ok (weather_code, sunrise_time, sunset_time, api_timestamp))
  with
  | Raise e => ([], Raise e)
  | Ok (weather_code, sunrise_time, sunset_time, api_timestamp) =>
      let '((local_timestamp, utc_timestamp), warnings) :=
        resolve_timestamp host current_local current_utc api_timestamp in
      (warnings,
       temperature_2m <- py_get current "temperature_2m" ;;
       apparent_temperature <- py_get current "apparent_temperature" ;;
       relative_humidity_2m <- py_get current "relative_humidity_2m" ;;
       pressure_msl <- py_get current "pressure_msl" ;;
       wind_speed_10m <- py_get current "wind_speed_10m" ;;
       wind_direction_10m <- py_get current "wind_direction_10m" ;;
       uv <- (l <- py_get_default daily "uv_index_max" (PList [PNone]) ;; py_index0 l) ;;
       cloud <- py_get current "cloud_cover" ;;
       description <- describe_code (float_repr host) weather_code ;;
       Ok (mkrecord (name location) (country location) (lat location) (lon location)
             temperature_2m apparent_temperature relative_humidity_2m pressure_msl
             wind_speed_10m wind_direction_10m PNone uv cloud weather_code description
             sunrise_time sunset_time (timezone location) local_timestamp utc_timestamp))
  end.

Record TransformState : Type := mktransform {
  transformed_records : list WeatherRecord;
  transform_log : list log_entry
}.

(** One iteration: a record is appended, or the exception is logged and the
    location is skipped. *)
Definition transform_step (host : Host) (current_local current_utc : datetime)
    (st : TransformState) (item : string * RawObservation) : result TransformState :=
  let '(city_key, data) := item in
  let '(warnings, outcome) := transform_try host current_local current_utc data in
  try_except
    (record <- outcome ;;
     Ok (mktransform (transformed_records st ++ [record])
           (transform_log st ++ warnings
            ++ [mklog INFO "Transformed weather data" (city_name record)])))
    (fun e =>
       Ok (mktransform (transformed_records st)
             (transform_log st ++ warnings
              ++ [mklog ERROR "Error transforming data" city_key]))).

(** [current_local] and [current_utc] are what get_local_now() and
    get_utc_now() return when the task starts. *)
Definition transform_weather_data (host : Host) (current_local current_utc : datetime)
    (raw_weather_data : dict RawObservation) : result TransformState :=
  for_each (transform_step host current_local current_utc) raw_weather_data
           (mktransform [] []).

(** ** load_weather_data *)

Record LoadState (DB : Type) : Type := mkload {
  db : DB;
  loaded_records : Z;
  failed_records : Z;
  inserts_attempted : list WeatherRecord;
  load_log : list log_entry
}.
Arguments mkload {DB}.
Arguments db {DB}.
Arguments loaded_records {DB}.
Arguments failed_records {DB}.
Arguments inserts_attempted {DB}.
Arguments load_log {DB}.

(** One iteration; [pg_run d r] is pg_hook.run(insert_query, parameters=r)
    on the store [d]: the store after the insert, or the exception. *)
Definition load_step {DB} (pg_run : DB -> WeatherRecord -> result DB)
    (st : LoadState DB) (record : WeatherRecord) : result (LoadState DB) :=
  let attempted := (inserts_attempted st ++ [record])%list in
  try_except
    (d <- pg_run (db st) record ;;
     Ok (mkload d (loaded_records st + 1) (failed_records st) attempted
           (load_log st ++ [mklog INFO "Loaded weather data" (city_name record)])))
    (fun e =>
       Ok (mkload (db st) (loaded_records st) (failed_records st + 1) attempted
             (load_log st ++ [mklog ERROR "Error loading data" (city_name record)]))).

(** What the task returns (the dict), with the store it leaves, the inserts
    it attempted and the lines it logged. *)
Record LoadOutcome (DB : Type) : Type := mkoutcome {
  load_result : dict Z;
  db_after : DB;
  inserts : list WeatherRecord;
  log_lines : list log_entry
}.
Arguments mkoutcome {DB}.
Arguments load_result {DB}.
Arguments db_after {DB}.
Arguments inserts {DB}.
Arguments log_lines {DB}.

Definition load_weather_data {DB} (pg_run : DB -> WeatherRecord -> result DB)
    (d0 : DB) (records : list WeatherRecord) : result (LoadOutcome DB) :=
  match records with
  | [] =>
      Ok (mkoutcome [("loaded_records"%string, 0); ("failed_records"%string, 0)]
            d0 [] [mklog WARNING "No records to load" ""])
  | _ :: _ =>
      st <- for_each (load_step pg_run) records (mkload d0 0 0 [] []) ;;
      let result :=
        [("loaded_records"%string, loaded_records st);
         ("failed_records"%string, failed_records st);
         ("total_records"%string, Z.of_nat (List.length records))] in
      Ok (mkoutcome result (db st) (inserts_attempted st)
            (load_log st ++ [mklog INFO "Load summary" ""]))
  end.

(** ** generate_weather_summary *)

(** The row of the aggregate query over latest_weather_by_city. *)
Record SummaryRow : Type := mksummaryrow {
  q_total_cities : Z;
  q_avg_temperature : option Q;
  q_min_temperature : option Q;
  q_max_temperature : option Q;
  q_avg_humidity : option Q;
  q_avg_pressure : option Q;
  q_earliest_data_utc : option datetime;
  q_latest_data_utc : option datetime
}.

(** round(x): ties go to the even neighbour. *)
Definition round_half_even (q : Q) : Z :=
  let f := Qfloor q in
  let twice := Qfloor (2 * q) - 2 * f in
  if twice =? 0 then f
  else if Qeq_bool (2 * q) (inject_Z (2 * f + 1)) then (if Z.even f then f else f + 1)
  else f + 1.

(** round(x, 2) *)
Definition round2 (q : Q) : Q := round_half_even (q * 100) # 100.

(** round(x, 2) if x else None *)
Definition rounded_if_truthy (x : option Q) : option Q :=
  match x with
  | Some q => if Qeq_bool q 0 then None else Some (round2 q)
  | None => None
  end.

Record WeatherSummary : Type := mkweathersummary {
  total_cities : Z;
  avg_temperature : option Q;
  min_temperature : option Q;
  max_temperature : option Q;
  avg_humidity : option Q;
  avg_pressure : option Q;
  earliest_data_utc : option datetime;
  latest_data_utc : option datetime;
  total_records_24h : Z
}.

Record Summary : Type := mksummary {
  etl_timestamp_utc : datetime;
  etl_timestamp_local : datetime;
  summary_load_result : dict Z;
  weather_summary : WeatherSummary
}.

(** [summary_result] and [count_result] are what the two pg_hook.get_first
    calls do; [now_utc] and [now_local] are the clock readings. *)
Definition generate_weather_summary (summary_result : result SummaryRow)
    (count_result : result Z) (now_utc now_local : datetime) (load_result : dict Z)
  : result Summary :=
  row <- summary_result ;;
  total_24h <- count_result ;;
  Ok (mksummary now_utc now_local load_result
        (mkweathersummary
           (if q_total_cities row =? 0 then 0 else q_total_cities row)
           (rounded_if_truthy (q_avg_temperature row))
           (q_min_temperature row)
           (q_max_temperature row)
           (rounded_if_truthy (q_avg_humidity row))
           (rounded_if_truthy (q_avg_pressure row))
           (q_earliest_data_utc row)
           (q_latest_data_utc row)
           total_24h)).

(** ** data_quality_check *)

(** The two columns of weather_data the checks read; NULL is None, a
    timestamp is an instant in microseconds. *)
Record TableRow : Type := mktablerow {
  col_timestamp_utc : option Z;
  col_temperature : option Q
}.

(** The weather table as a statement sees it, with the NOW() of that
    statement. *)
Record Snapshot : Type := mksnapshot {
  now : Z;
  rows : list TableRow
}.

Definition HOUR : Z := 3600 * US_PER_SECOND.

(** WHERE timestamp_utc >= NOW() - INTERVAL '<hours> hours' *)
Definition within_hours (hours : Z) (snap : Snapshot) (r : TableRow) : bool :=
  match col_timestamp_utc r with
  | Some t => now snap - hours * HOUR <=? t
  | None => false
  end.

(** COUNT(CASE WHEN cond THEN 1 END) *)
Definition count_when (cond : TableRow -> bool) (l : list TableRow) : Z :=
  Z.of_nat (List.length (filter cond l)).

Definition in_future (snap : Snapshot) (r : TableRow) : bool :=
  match col_timestamp_utc r with
  | Some t => now snap <? t
  | None => false
  end.

Definition too_old (snap : Snapshot) (r : TableRow) : bool :=
  match col_timestamp_utc r with
  | Some t => t <? now snap - 7 * 24 * HOUR
  | None => false
  end.

(** temperature < -50 OR temperature > 60 *)
Definition extreme (r : TableRow) : bool :=
  match col_temperature r with
  | Some t => negb (Qle_bool (-50) t) || negb (Qle_bool t 60)
  | None => false
  end.

Definition opt_merge (pick : Q -> Q -> Q) (acc : option Q) (r : TableRow) : option Q :=
  match col_temperature r, acc with
  | Some t, Some a => Some (pick a t)
  | Some t, None => Some t
  | None, _ => acc
  end.

Definition q_min (a b : Q) : Q := if Qle_bool a b then a else b.
Definition q_max (a b : Q) : Q := if Qle_bool a b then b else a.

(** MIN(temperature) and MAX(temperature): NULLs are skipped, no value
    gives NULL. *)
Definition sql_min (l : list TableRow) : option Q := fold_left (opt_merge q_min) l None.
Definition sql_max (l : list TableRow) : option Q := fold_left (opt_merge q_max) l None.

(** utc_check_query: (total_records, future_records, old_records) *)
Definition utc_check_query (snap : Snapshot) : Z * Z * Z :=
  let recent := filter (within_hours 24 snap) (rows snap) in
  (Z.of_nat (List.length recent), count_when (in_future snap) recent,
   count_when (too_old snap) recent).

(** temp_check_query: (min_temp, max_temp, extreme_temps) *)
Definition temp_check_query (snap : Snapshot) : option Q * option Q * Z :=
  let recent := filter (within_hours 1 snap) (rows snap) in
  (sql_min recent, sql_max recent, count_when extreme recent).

Record UtcTimestampCheck : Type := mkutccheck {
  utc_total_records : Z;
  future_records : Z;
  old_records : Z;
  utc_passed : bool
}.

Record TemperatureCheck : Type := mktempcheck {
  min_temperature_seen : option Q;
  max_temperature_seen : option Q;
  extreme_temperatures : Z;
  temp_passed : bool
}.

Record QualitySummary : Type := mkquality {
  quality_timestamp : datetime;
  utc_timestamp_check : UtcTimestampCheck;
  temperature_check : TemperatureCheck;
  overall_score : string;
  all_passed : bool
}.

(** The two pg_hook.get_first calls give the table as the first and as the
    second query find it, or raise; [now_utc] is get_utc_now() at the end. *)
Definition data_quality_check (utc_check_result temp_check_result : result Snapshot)
    (now_utc : datetime) (load_result : dict Z) : result QualitySummary :=
  snap1 <- utc_check_result ;;
  let '(total, future, old) := utc_check_query snap1 in
  let utc_check := mkutccheck total future old (future =? 0) in
  snap2 <- temp_check_result ;;
  let '(min_temp, max_temp, extreme_temps) := temp_check_query snap2 in
  let temp_check := mktempcheck min_temp max_temp extreme_temps (extreme_temps =? 0) in
  let passed_checks :=
    (if utc_passed utc_check then 1 else 0) + (if temp_passed temp_check then 1 else 0) in
  let total_checks := 2 in
  Ok (mkquality now_utc utc_check temp_check
        (str_of_int passed_checks ++ "/" ++ str_of_int total_checks)%string
        (passed_checks =? total_checks)).

(** ** Reference points for the statements below *)

(** The records a run keeps: one per location whose try block ends well. *)
Definition records_of (host : Host) (current_local current_utc : datetime)
    (raw_weather_data : dict RawObservation) : list WeatherRecord :=
  flat_map
    (fun item : string * RawObservation =>
       match snd (transform_try host current_local current_utc (snd item)) with
       | Ok r => [r]
       | Raise _ => []
       end)
    raw_weather_data.

(** A host in the zone UTC+05:30 all year, with the common parser. *)
Definition host_kolkata : Host :=
  mkhost (fun _ => 19800 * US_PER_SECOND) (fun _ => "0.0"%string) fromisoformat_common.

(** Clock readings of a run that starts on 2024-06-01 at 18:00 local. *)
Definition sample_local_now : datetime := mkdt 2024 6 1 18 0 0 250 None.
Definition sample_utc_now : datetime := mkdt 2024 6 1 12 30 0 310 (Some 0).

Definition sample_location : Location :=
  mkloc "Paris" (Some "France"%string) (488566 # 10000) (23522 # 10000)
        (Some "Europe/Paris"%string).

(** An observation with the given "current" and "daily" objects. *)
Definition observation (current daily : dict pyval) : RawObservation :=
  mkraw sample_location (PDict current) (PDict daily)
        (PDict [("current"%string, PDict current); ("daily"%string, PDict daily)]).

(** What the value under current["time"] is to the timestamp block. *)
Inductive timestamp_case : Type :=
| Missing
| NotAString
| NoSeparator
| Unparsable
| Aware (parsed : datetime)
| Naive (parsed : datetime).

Definition classify (host : Host) (api_timestamp : pyval) : timestamp_case :=
  if truthy api_timestamp then
    match api_timestamp with
    | PStr s =>
        if contains_char "T" s then
          match fromisoformat host (replace_Z s) with
          | Ok parsed =>
              match tzinfo parsed with
              | Some _ => Aware parsed
              | None => Naive parsed
              end
          | Raise _ => Unparsable
          end
        else NoSeparator
    | _ => NotAString
    end
  else Missing.

(** What the two timestamp fields of a record hold, by the case of the
    value under current["time"]. *)
Definition timestamps_as_resolved (host : Host) (cl cu : datetime)
    (ts : pyval) (r : WeatherRecord) : Prop :=
  match classify host ts with
  | Aware parsed =>
      match astimezone_local (local_utcoffset host) parsed, astimezone_utc parsed with
      | Ok l, Ok u =>
          timestamp_utc r = u /\ tzinfo u = Some 0 /\ instant u = instant parsed /\
          timestamp r = replace_tzinfo l None /\ instant l = instant parsed
      | _, _ => timestamp r = cl /\ timestamp_utc r = cu
      end
  | Naive parsed =>
      timestamp_utc r = replace_tzinfo parsed (Some 0) /\
      instant (timestamp_utc r) = wall_us parsed /\
      timestamp r = parsed
  | Missing | NotAString | NoSeparator | Unparsable =>
      timestamp r = cl /\ timestamp_utc r = cu
  end.

(** The cases in which the timestamp block ends on the clock readings. *)
Definition falls_back (host : Host) (ts : pyval) : bool :=
  match classify host ts with
  | Aware parsed =>
      match astimezone_local (local_utcoffset host) parsed, astimezone_utc parsed with
      | Ok _, Ok _ => false
      | _, _ => true
      end
  | Naive _ => false
  | Missing | NotAString | NoSeparator | Unparsable => true
  end.

(** The value under current["time"], None when there is none. *)
Definition api_time (data : RawObservation) : pyval :=
  match raw_current data with
  | PDict d => match dict_get d "time" with Some v => v | None => PNone end
  | _ => PNone
  end.



(** The inserts of a run replayed: which of them succeed, and the store
    they leave. *)
Fixpoint replay {DB} (pg_run : DB -> WeatherRecord -> result DB) (d : DB)
    (records : list WeatherRecord) : list bool * DB :=
  match records with
  | [] => ([], d)
  | r :: rest =>
      match pg_run d r with
      | Ok d' => let '(bs, df) := replay pg_run d' rest in (true :: bs, df)
      | Raise _ => let '(bs, df) := replay pg_run d rest in (false :: bs, df)
      end
  end.

Definition count_true (bs : list bool) : Z := Z.of_nat (List.length (filter (fun b => b) bs)).
Definition count_false (bs : list bool) : Z := Z.of_nat (List.length (filter negb bs)).

Definition is_error (e : log_entry) : bool :=
  match level e with ERROR => true | _ => false end.

(** The number of error lines in a log. *)
Definition errors_logged (l : list log_entry) : Z :=
  Z.of_nat (List.length (filter is_error l)).

(** The observation an answer of the API gives for [location], if any: the
    status is 200 and the body decodes to a JSON object. *)
Definition observation_of (location : Location) (o : http_outcome) : option RawObservation :=
  match o with
  | HttpResponse status_code (Ok (PDict d)) =>
      if status_code =? 200 then
        Some (mkraw location
                (match dict_get d "current" with Some v => v | None => PDict [] end)
                (match dict_get d "daily" with Some v => v | None => PDict [] end)
                (PDict d))
      else None
  | _ => None
  end.

(** The locations whose call gave an observation, the first call being
    number [n]. *)
Fixpoint fetched (http_run : nat -> Endpoint -> http_outcome) (n : nat)
    (locations : dict Location) : dict RawObservation :=
  match locations with
  | [] => []
  | (key, location) :: rest =>
      match observation_of location (http_run n (endpoint_of location)) with
      | Some obs => (key, obs) :: fetched http_run (S n) rest
      | None => fetched http_run (S n) rest
      end
  end.

(** The entry a configuration row with a name and both coordinates stands
    for. *)
Definition location_of_row (lower : string -> string) (row : ConfigRow)
  : option (string * Location) :=
  match row_city_name row, row_latitude row, row_longitude row with
  | Some nm, Some la, Some lo =>
      Some (slug_of lower nm, mkloc nm (row_country row) la lo (row_timezone row))
  | _, _, _ => None
  end.

(** The row has a name and both coordinates. *)
Definition complete_row (row : ConfigRow) : bool :=
  match row_city_name row, row_latitude row, row_longitude row with
  | Some _, Some _, Some _ => true
  | _, _, _ => false
  end.

(** The location of the last row whose slug is [key]. *)
Fixpoint last_with_slug (lower : string -> string) (rows : list ConfigRow) (key : string)
  : option Location :=
  match rows with
  | [] => None
  | row :: rest =>
      match last_with_slug lower rest key with
      | Some l => Some l
      | None =>
          match location_of_row lower row with
          | Some (k, l) => if String.eqb k key then Some l else None
          | None => None
          end
      end
  end.

(** The entries the rows stand for, in row order, and their slugs. *)
Definition entries (lower : string -> string) (rows : list ConfigRow) : dict Location :=
  flat_map (fun row => match location_of_row lower row with
                       | Some kl => [kl]
                       | None => []
                       end) rows.

Definition slugs (lower : string -> string) (rows : list ConfigRow) : list string :=
  keys (entries lower rows).

(** How an average of the aggregate row shows in the summary. *)
Definition reported_as (avg shown : option Q) : Prop :=
  match avg with
  | None => shown = None
  | Some q =>
      (q == 0 -> shown = None)%Q /\
      (~ (q == 0)%Q ->
       exists k : Z, shown = Some (k # 100) /\ (Qabs ((k # 100) - q) <= 1 # 200)%Q)
  end.

(** The rows of the last [hours] hours. *)
Definition window (hours : Z) (snap : Snapshot) : list TableRow :=
  filter (within_hours hours snap) (rows snap).


(** A run over six observations: an aware timestamp, a naive one, none, one
    without the separator, one whose local reading leaves the calendar, and
    a sunrise that is no date. *)
Definition sample_raw : dict RawObservation :=
  [ ("paris",
     observation
       [ ("time", PStr "2024-06-01T12:00:00+02:00"); ("weather_code", PInt 3);
         ("temperature_2m", PFloat (215 # 10)) ]
       [ ("sunrise", PList [PStr "2024-06-01T04:45:00Z"]);
         ("sunset", PList [PStr "2024-06-01T19:40"]) ]);
    ("tokyo", observation [ ("time", PStr "2024-06-01T12:00:00") ] []);
    ("lima", observation [] []);
    ("oslo", observation [ ("time", PStr "2024-06-01 12:00:00"); ("weather_code", PInt 100) ] []);
    ("cairo", observation [ ("time", PStr "9999-12-31T23:59:59+00:00") ] []);
    ("rome", observation [] [ ("sunrise", PList [PStr "garbage"]) ]) ]%string.

(** A store that keeps the rows it is given and refuses a city called
    "Atlantis". *)
Definition sample_pg_run (d : list WeatherRecord) (r : WeatherRecord)
  : result (list WeatherRecord) :=
  if String.eqb (city_name r) "Atlantis" then Raise DatabaseError else Ok (d ++ [r])%list.

Definition sample_record (city : string) : WeatherRecord :=
  mkrecord city None 0 0 PNone PNone PNone PNone PNone PNone PNone PNone PNone
           (PInt 0) "Clear sky" None None None sample_local_now sample_utc_now.

Definition five_records : list WeatherRecord :=
  map sample_record ["Paris"; "Tokyo"; "Atlantis"; "Lima"; "Oslo"]%string.

(** Three configured locations, and an API that answers the second call
    with status 503 and every other call with a small forecast. *)
Definition three_locations : dict Location := firstn 3 DEFAULT_LOCATIONS.

Definition sample_body : pyval :=
  PDict [ ("current", PDict [ ("time", PStr "2024-06-01T12:00"); ("weather_code", PInt 2) ]);
          ("daily", PDict [ ("sunrise", PList [PStr "2024-06-01T04:45"]) ]) ]%string.

Definition sample_http_run (n : nat) (ep : Endpoint) : http_outcome :=
  if Nat.eqb n 1 then HttpResponse 503 (Raise ValueError)
  else HttpResponse 200 (Ok sample_body).

(** Two active rows for two cities called Paris. *)
Definition paris_france : ConfigRow :=
  mkrow (Some "Paris"%string) (Some "France"%string) (Some (488566 # 10000))
        (Some (23522 # 10000)) (Some "Europe/Paris"%string).
Definition paris_texas : ConfigRow :=
  mkrow (Some "Paris"%string) (Some "United States"%string) (Some (336609 # 10000))
        (Some (-955555 # 10000)) (Some "America/Chicago"%string).
Definition new_york_row : ConfigRow :=
  mkrow (Some "New York"%string) (Some "United States"%string) (Some (407128 # 10000))
        (Some (-740060 # 10000)) (Some "America/New_York"%string).

Definition fresh_snapshot : Snapshot :=
  mksnapshot (10 * HOUR) [mktablerow (Some (10 * HOUR - 600 * US_PER_SECOND)) (Some (85 # 1));
                          mktablerow (Some (10 * HOUR - 900 * US_PER_SECOND)) (Some (215 # 10))].

(** An aggregate row over cities whose temperatures average to zero. *)
Definition zero_average_row : SummaryRow :=
  mksummaryrow 2 (Some 0%Q) (Some (-4 # 1)) (Some (4 # 1)) (Some (2675 # 1000)) None None None.

(** ** convert_to_utc and the task graph *)

(** convert_to_utc: [localize] is pytz's local_tz.localize for
    'Asia/Kolkata', which attaches the zone's offset to a naive reading or
    raises. *)
Definition convert_to_utc (localize : datetime -> result datetime) (dt : datetime)
  : result datetime :=
  match tzinfo dt with
  | None => localized_dt <- localize dt ;; astimezone_utc localized_dt
  | Some _ => astimezone_utc dt
  end.

(** A zone whose offset never changes. *)
Definition localize_fixed (off : Z) (dt : datetime) : result datetime :=
  Ok (replace_tzinfo dt (Some off)).

(** The first four tasks as the DAG wires them: each takes what the one
    before returns. *)
Definition etl_load {DB} (lower : string -> string)
    (get_records : result (list ConfigRow))
    (http_run : nat -> Endpoint -> http_outcome)
    (host : Host) (current_local current_utc : datetime)
    (pg_run : DB -> WeatherRecord -> result DB) (d0 : DB) : result (LoadOutcome DB) :=
  provided <- get_active_locations lower get_records ;;
  raw_data <- extract_weather_data http_run (fst provided) ;;
  transformed_data <-
    transform_weather_data host current_local current_utc (weather_data raw_data) ;;
  load_weather_data pg_run d0 (transformed_records transformed_data).

(** ** Reference points for the further statements *)

(** obj.get(k) on a JSON object. *)
Definition get_or_none (d : dict pyval) (k : string) : pyval :=
  match dict_get d k with Some v => v | None => PNone end.

Definition is_Z (c : ascii) : bool := Ascii.eqb c "Z".
Definition is_space (c : ascii) : bool := Ascii.eqb c " ".
Definition is_upper (c : ascii) : bool :=
  (Nat.leb 65 (nat_of_ascii c) && Nat.leb (nat_of_ascii c) 90)%bool.

(** Some character of [s] satisfies [p]. *)
Fixpoint has_char (p : ascii -> bool) (s : string) : bool :=
  match s with
  | EmptyString => false
  | String c s' => p c || has_char p s'
  end.

Definition is_some {A} (o : option A) : bool :=
  match o with Some _ => true | None => false end.

(** The integer in a dict of counters, 0 when absent. *)
Definition counter (d : dict Z) (k : string) : Z :=
  match dict_get d k with Some n => n | None => 0 end.

(** The first observation of the sample run, and three with one payload
    off the usual. *)
Definition sample_observation : RawObservation :=
  observation
    [ ("time", PStr "2024-06-01T12:00:00+02:00"); ("weather_code", PInt 3);
      ("temperature_2m", PFloat (215 # 10)) ]%string
    [ ("sunrise", PList [PStr "2024-06-01T04:45:00Z"]);
      ("sunset", PList [PStr "2024-06-01T19:40"]);
      ("uv_index_max", PList [PFloat (6 # 1)]) ]%string.
Definition no_uv_observation : RawObservation :=
  observation [] [ ("uv_index_max"%string, PList []) ].
Definition null_code_observation : RawObservation :=
  observation [ ("weather_code"%string, PNone) ] [].

(** * Properties *)

(** ** Exceptions and loops *)

Lemma bind_Ok {A B} (m : result A) (k : A -> result B) (b : B) :
  bind m k = Ok b -> exists a, m = Ok a /\ k a = Ok b.
Proof. destruct m as [a|e]; simpl; [eauto | discriminate]. Qed.

Lemma for_each_total {S A} (f : S -> A -> result S) (l : list A) :
  (forall s a, exists s', f s a = Ok s') ->
  forall s, exists s', for_each f l s = Ok s'.
Proof.
  intros Hf. induction l as [|a l IH]; intros s; simpl.
  - now exists s.
  - destruct (Hf s a) as [s1 ->]. simpl. apply IH.
Qed.

(** ** Dicts *)

Lemma dict_get_app_other {V} (d : dict V) (k' k : string) (v : V) :
  String.eqb k' k = false -> dict_get (d ++ [(k', v)]) k = dict_get d k.
Proof.
  intros Hk. induction d as [|[k0 v0] d IH]; cbn [dict_get app].
  - now rewrite Hk.
  - destruct (String.eqb k0 k); [reflexivity | exact IH].
Qed.

Lemma dict_get_app_new {V} (d : dict V) (k : string) (v : V) :
  dict_get d k = None -> dict_get (d ++ [(k, v)]) k = Some v.
Proof.
  induction d as [|[k0 v0] d IH]; cbn [dict_get app].
  - now rewrite String.eqb_refl.
  - destruct (String.eqb k0 k); [discriminate | exact IH].
Qed.

Lemma dict_set_new {V} (d : dict V) (k : string) (v : V) :
  ~ In k (keys d) -> dict_set d k v = (d ++ [(k, v)])%list.
Proof.
  unfold keys. induction d as [|[k0 v0] d IH]; cbn [dict_set map fst In app]; intros H.
  - reflexivity.
  - destruct (String.eqb_spec k0 k) as [->|_].
    + exfalso. apply H. now left.
    + f_equal. apply IH. intros Hin. apply H. now right.
Qed.

Lemma dict_get_not_key {V} (d : dict V) (k : string) :
  ~ In k (keys d) -> dict_get d k = None.
Proof.
  unfold keys. induction d as [|[k0 v0] d IH]; cbn [dict_get map fst In]; intros H.
  - reflexivity.
  - destruct (String.eqb_spec k0 k) as [->|_].
    + exfalso. apply H. now left.
    + apply IH. intros Hin. apply H. now right.
Qed.

Lemma dict_get_set {V} (d : dict V) (k k' : string) (v : V) :
  dict_get (dict_set d k v) k' = if String.eqb k k' then Some v else dict_get d k'.
Proof.
  induction d as [|[k0 v0] d IH]; cbn [dict_set dict_get].
  - reflexivity.
  - destruct (String.eqb_spec k0 k) as [->|Hne]; cbn [dict_get].
    + destruct (String.eqb k k'); reflexivity.
    + rewrite IH. destruct (String.eqb_spec k0 k') as [->|_]; [|reflexivity].
      destruct (String.eqb_spec k k') as [->|_]; [contradiction | reflexivity].
Qed.

Lemma keys_dict_set {V} (d : dict V) (k : string) (v : V) :
  keys (dict_set d k v) = if existsb (String.eqb k) (keys d) then keys d
                          else (keys d ++ [k])%list.
Proof.
  unfold keys. induction d as [|[k0 v0] d IH]; cbn [dict_set map fst existsb app].
  - reflexivity.
  - rewrite (String.eqb_sym k k0).
    destruct (String.eqb_spec k0 k) as [->|_]; cbn [map fst orb].
    + reflexivity.
    + rewrite IH. destruct (existsb (String.eqb k) (map fst d)); reflexivity.
Qed.

Lemma existsb_eqb_In (k : string) (l : list string) :
  existsb (String.eqb k) l = true <-> In k l.
Proof.
  rewrite existsb_exists. split.
  - intros [x [Hin Heq]]. apply String.eqb_eq in Heq. now subst.
  - intros Hin. exists k. split; [assumption | apply String.eqb_refl].
Qed.

Lemma In_keys_dict_set {V} (d : dict V) (k k' : string) (v : V) :
  In k' (keys (dict_set d k v)) <-> k' = k \/ In k' (keys d).
Proof.
  rewrite keys_dict_set.
  destruct (existsb (String.eqb k) (keys d)) eqn:E.
  - apply existsb_eqb_In in E. split; [tauto|]. intros [->|H]; assumption.
  - rewrite in_app_iff. cbn [In]. intuition.
Qed.

Lemma NoDup_keys_dict_set {V} (d : dict V) (k : string) (v : V) :
  NoDup (keys d) -> NoDup (keys (dict_set d k v)).
Proof.
  intros Hnd. rewrite keys_dict_set.
  destruct (existsb (String.eqb k) (keys d)) eqn:E; [assumption|].
  assert (Hk : ~ In k (keys d)).
  { intros Hin. apply existsb_eqb_In in Hin. congruence. }
  apply NoDup_app; [assumption | repeat constructor; intros [] |].
  intros x Hin [<-|[]]. contradiction.
Qed.

Create HintDb pydict.
#[local] Hint Resolve NoDup_keys_dict_set dict_get_not_key NoDup_nil : pydict.

(** ** The weather-code table *)

Lemma codes_get_In (table : list (Z * string)) (code : Z) (d : string) :
  codes_get table code = Some d -> In (code, d) table.
Proof.
  induction table as [|[k v] t IH]; simpl; [discriminate|].
  destruct (Z.eqb_spec k code) as [->|_].
  - intros [= ->]. now left.
  - intros H. right. now apply IH.
Qed.

Lemma codes_get_None (table : list (Z * string)) (code : Z) :
  ~ In code (map fst table) -> codes_get table code = None.
Proof.
  induction table as [|[k v] t IH]; simpl; [reflexivity|].
  intros H. destruct (Z.eqb_spec k code) as [->|_].
  - exfalso. apply H. now left.
  - apply IH. intros Hin. apply H. now right.
Qed.

Lemma weather_codes_functional (code : Z) (d : string) :
  In (code, d) weather_codes -> codes_get weather_codes code = Some d.
Proof.
  unfold weather_codes. simpl.
  intros H.
  repeat (destruct H as [H|H]; [injection H as <- <-; reflexivity|]).
  contradiction.
Qed.

Lemma weather_codes_nonempty (code : Z) (d : string) :
  In (code, d) weather_codes -> d <> EmptyString.
Proof.
  unfold weather_codes. simpl.
  intros H.
  repeat (destruct H as [H|H]; [injection H as <- <-; discriminate|]).
  contradiction.
Qed.

Lemma unknown_nonempty (shown : string) : unknown shown <> EmptyString.
Proof. unfold unknown. simpl. discriminate. Qed.

Lemma describe_int_nonempty (code : Z) : describe_int code <> EmptyString.
Proof.
  unfold describe_int.
  destruct (codes_get weather_codes code) as [d|] eqn:E.
  - apply codes_get_In in E. now apply weather_codes_nonempty in E.
  - apply unknown_nonempty.
Qed.

(** Closes a goal saying that a literal is no key of the table. *)
Ltac not_a_code :=
  let H := fresh "H" in
  cbn [weather_codes map fst In]; intros H;
  repeat (destruct H as [H|H]; [discriminate H|]); exact H.

(** ** Calendar arithmetic *)

Lemma days_before_month_12 (y : Z) :
  days_before_month y 12 = if is_leap y then 335 else 334.
Proof. unfold days_before_month. simpl. destruct (is_leap y); reflexivity. Qed.

Lemma div_eq (a b q r : Z) : a = b * q + r -> 0 <= r < b -> a / b = q.
Proof. intros -> Hr. symmetry. apply Z.div_unique with (r := r); lia. Qed.

Lemma mod_eq (a b q r : Z) : a = b * q + r -> 0 <= r < b -> a mod b = r.
Proof. intros -> Hr. symmetry. apply Z.mod_unique with (q := q); lia. Qed.

(** The days before a year, by 400-, 100-, 4- and 1-year cycles. *)
Lemma days_before_year_split (a b c d : Z) :
  0 <= b <= 3 -> 0 <= c <= 24 -> 0 <= d <= 3 ->
  days_before_year (400 * a + 100 * b + 4 * c + d + 1)
  = 146097 * a + 36524 * b + 1461 * c + 365 * d.
Proof.
  intros Hb Hc Hd. unfold days_before_year. cbv zeta.
  replace (400 * a + 100 * b + 4 * c + d + 1 - 1) with (400 * a + 100 * b + 4 * c + d) by lia.
  rewrite (div_eq (400 * a + 100 * b + 4 * c + d) 4 (100 * a + 25 * b + c) d) by lia.
  rewrite (div_eq (400 * a + 100 * b + 4 * c + d) 100 (4 * a + b) (4 * c + d)) by lia.
  rewrite (div_eq (400 * a + 100 * b + 4 * c + d) 400 a (100 * b + 4 * c + d)) by lia.
  lia.
Qed.

(** The date of an ordinal has that ordinal. *)
Lemma ymd2ord_ord2ymd (ord : Z) :
  let '(y, m, d) := ord2ymd ord in ymd2ord y m d = ord.
Proof.
  unfold ord2ymd, ymd2ord, DI400Y, DI100Y, DI4Y.
  set (n0 := ord - 1).
  set (n400 := n0 / 146097). set (r1 := n0 mod 146097).
  set (n100 := r1 / 36524). set (r2 := r1 mod 36524).
  set (n4 := r2 / 1461). set (r3 := r2 mod 1461).
  set (n1 := r3 / 365). set (r4 := r3 mod 365).
  assert (H1 : n0 = 146097 * n400 + r1 /\ 0 <= r1 < 146097)
    by (subst n400 r1; split; [apply Z.div_mod; lia | apply Z.mod_pos_bound; lia]).
  assert (H2 : r1 = 36524 * n100 + r2 /\ 0 <= r2 < 36524)
    by (subst n100 r2; split; [apply Z.div_mod; lia | apply Z.mod_pos_bound; lia]).
  assert (H3 : r2 = 1461 * n4 + r3 /\ 0 <= r3 < 1461)
    by (subst n4 r3; split; [apply Z.div_mod; lia | apply Z.mod_pos_bound; lia]).
  assert (H4 : r3 = 365 * n1 + r4 /\ 0 <= r4 < 365)
    by (subst n1 r4; split; [apply Z.div_mod; lia | apply Z.mod_pos_bound; lia]).
  assert (H0 : n0 = ord - 1) by reflexivity.
  clearbody n400 r1 n100 r2 n4 r3 n1 r4 n0.
  assert (B100 : 0 <= n100 <= 4) by lia.
  assert (B4 : 0 <= n4 <= 24) by lia.
  assert (B1 : 0 <= n1 <= 4) by lia.
  destruct ((n1 =? 4) || (n100 =? 4))%bool eqn:E.
  - rewrite days_before_month_12.
    apply Bool.orb_true_iff in E.
    destruct E as [E|E]; apply Z.eqb_eq in E.
    + assert (Hr : r4 = 0) by lia.
      assert (Hc : n4 <= 23) by lia.
      assert (Hb : n100 <= 3) by lia.
      replace (n400 * 400 + 1 + n100 * 100 + n4 * 4 + n1 - 1)
        with (400 * n400 + 100 * n100 + 4 * n4 + 3 + 1) by lia.
      rewrite days_before_year_split by lia.
      unfold is_leap.
      rewrite (mod_eq (400 * n400 + 100 * n100 + 4 * n4 + 3 + 1) 4
                      (100 * n400 + 25 * n100 + n4 + 1) 0) by lia.
      rewrite (mod_eq (400 * n400 + 100 * n100 + 4 * n4 + 3 + 1) 100
                      (4 * n400 + n100) (4 * n4 + 4)) by lia.
      destruct (Z.eqb_spec (4 * n4 + 4) 0); [lia|].
      rewrite Z.eqb_refl. cbn [negb orb andb]. lia.
    + assert (n4 = 0 /\ n1 = 0 /\ r4 = 0) as (Hc & Hd & Hr) by lia.
      replace (n400 * 400 + 1 + n100 * 100 + n4 * 4 + n1 - 1)
        with (400 * n400 + 100 * 3 + 4 * 24 + 3 + 1) by lia.
      rewrite days_before_year_split by lia.
      unfold is_leap.
      rewrite (mod_eq (400 * n400 + 100 * 3 + 4 * 24 + 3 + 1) 4 (100 * n400 + 100) 0) by lia.
      rewrite (mod_eq (400 * n400 + 100 * 3 + 4 * 24 + 3 + 1) 400 (n400 + 1) 0) by lia.
      rewrite !Z.eqb_refl, Bool.orb_true_r. cbn [andb]. lia.
  - apply Bool.orb_false_iff in E. destruct E as [E1 E2].
    apply Z.eqb_neq in E1, E2.
    cbv beta iota zeta.
    replace (n400 * 400 + 1 + n100 * 100 + n4 * 4 + n1)
      with (400 * n400 + 100 * n100 + 4 * n4 + n1 + 1) by lia.
    rewrite days_before_year_split by lia.
    lia.
Qed.

(** A datetime built from a wall-clock reading reads that much. *)
Lemma wall_us_of_wall_us (us : Z) (tz : option Z) (dt : datetime) :
  of_wall_us us tz = Ok dt -> wall_us dt = us /\ tzinfo dt = tz.
Proof.
  unfold of_wall_us.
  destruct ((us <? 0) || (MAXORDINAL * US_PER_DAY <=? us))%bool eqn:E; [discriminate|].
  apply Bool.orb_false_iff in E. destruct E as [E1 E2].
  apply Z.ltb_ge in E1.
  pose proof (ymd2ord_ord2ymd (us / US_PER_DAY + 1)) as Hord.
  destruct (ord2ymd (us / US_PER_DAY + 1)) as [[y m] d].
  intros [= <-]. unfold wall_us. simpl. split; [|reflexivity].
  rewrite Hord. unfold US_PER_DAY, US_PER_SECOND in *.
  Z.to_euclidean_division_equations. lia.
Qed.

(** Conversion to UTC keeps the instant and gives offset zero. *)
Lemma astimezone_utc_instant (dt u : datetime) :
  astimezone_utc dt = Ok u -> tzinfo u = Some 0 /\ instant u = instant dt.
Proof.
  unfold astimezone_utc. intros H.
  apply wall_us_of_wall_us in H. destruct H as [Hw Htz].
  split; [assumption|]. unfold instant at 1. rewrite Htz, Hw. lia.
Qed.

(** Conversion to the local zone keeps the instant. *)
Lemma astimezone_local_instant (luo : Z -> Z) (dt l : datetime) :
  astimezone_local luo dt = Ok l -> instant l = instant dt.
Proof.
  unfold astimezone_local. intros H.
  apply bind_Ok in H. destruct H as [u [Hu H]].
  apply wall_us_of_wall_us in Hu. destruct Hu as [Hw _].
  apply wall_us_of_wall_us in H. destruct H as [Hl Htz].
  unfold instant at 1. rewrite Htz, Hl, Hw. lia.
Qed.

(** ** The Location Provider *)

Section Provider.

(** str.lower of the interpreter. *)
Variable lower : string -> string.

Lemma complete_row_location (row : ConfigRow) :
  complete_row row
  = match location_of_row lower row with Some _ => true | None => false end.
Proof.
  unfold complete_row, location_of_row.
  destruct (row_city_name row), (row_latitude row), (row_longitude row); reflexivity.
Qed.

Lemma add_location_spec (acc : dict Location) (row : ConfigRow) :
  add_location lower acc row =
  match location_of_row lower row with
  | Some (k, l) => Ok (dict_set acc k l)
  | None =>
      Raise (match row_city_name row with Some _ => TypeError | None => AttributeError end)
  end.
Proof.
  unfold add_location, location_of_row, row_name, py_float.
  destruct (row_city_name row); cbn [bind]; [|reflexivity].
  destruct (row_latitude row); cbn [bind]; [|reflexivity].
  destruct (row_longitude row); reflexivity.
Qed.

(** Rows that all have a name and coordinates fill the map, a later row
    replacing an earlier one with the same slug. *)
Lemma provider_run (rows : list ConfigRow) :
  forallb complete_row rows = true ->
  forall acc, exists locations,
    for_each (add_location lower) rows acc = Ok locations /\
    (forall k, dict_get locations k =
               match last_with_slug lower rows k with
               | Some l => Some l
               | None => dict_get acc k
               end) /\
    (forall k, In k (keys locations) <-> In k (keys acc) \/ In k (slugs lower rows)) /\
    (NoDup (keys acc) -> NoDup (keys locations)) /\
    (NoDup (slugs lower rows) -> (forall k, In k (keys acc) -> ~ In k (slugs lower rows)) ->
     locations = (acc ++ entries lower rows)%list).
Proof.
  unfold slugs.
  induction rows as [|row rest IH]; intros Hall acc;
    cbn [for_each last_with_slug entries flat_map].
  - exists acc. repeat split; try tauto.
    + intros [H|[]]; exact H.
    + intros _ _. now rewrite app_nil_r.
  - cbn [forallb] in Hall. apply andb_true_iff in Hall. destruct Hall as [Hrow Hrest].
    rewrite add_location_spec. rewrite complete_row_location in Hrow.
    destruct (location_of_row lower row) as [[k0 l0]|]; [|discriminate]. cbn [bind].
    destruct (IH Hrest (dict_set acc k0 l0)) as (locations & Hrun & Hget & Hkeys & Hnd & Happ).
    exists locations. split; [exact Hrun|]. split; [|split; [|split]].
    + intros k. rewrite Hget, dict_get_set.
      destruct (last_with_slug lower rest k); [reflexivity|].
      destruct (String.eqb k0 k); reflexivity.
    + intros k. rewrite Hkeys, In_keys_dict_set. cbn [app keys map fst In].
      unfold keys. intuition.
    + auto with pydict.
    + cbn [app keys map fst]. intros Hslugs Hfresh.
      inversion Hslugs as [|? ? Hnotin Hslugs']; subst.
      assert (Hk0 : ~ In k0 (keys acc)).
      { intros Hin. apply (Hfresh k0 Hin). now left. }
      rewrite Happ.
      * rewrite (dict_set_new _ _ _ Hk0). now rewrite <- app_assoc.
      * exact Hslugs'.
      * intros k Hin. apply In_keys_dict_set in Hin. destruct Hin as [->|Hin].
        -- exact Hnotin.
        -- intros Hin'. apply (Hfresh k Hin). now right.
Qed.

(** A row without a name or a coordinate ends the loop with an exception. *)
Lemma provider_run_incomplete (rows : list ConfigRow) :
  forallb complete_row rows = false ->
  forall acc, exists e, for_each (add_location lower) rows acc = Raise e.
Proof.
  induction rows as [|row rest IH]; intros Hall acc; [discriminate|].
  cbn [forallb for_each] in *. rewrite add_location_spec.
  rewrite complete_row_location in Hall.
  destruct (location_of_row lower row) as [[k0 l0]|]; cbn [bind].
  - cbn [andb] in Hall. apply (IH Hall).
  - eexists. reflexivity.
Qed.

Lemma entries_length (rows : list ConfigRow) :
  forallb complete_row rows = true -> List.length (entries lower rows) = List.length rows.
Proof.
  induction rows as [|row rest IH]; cbn [forallb entries flat_map List.length];
    [reflexivity|].
  intros Hall. apply andb_true_iff in Hall. destruct Hall as [Hrow Hrest].
  rewrite complete_row_location in Hrow. destruct (location_of_row lower row); [|discriminate].
  cbn [app List.length]. f_equal. now apply IH.
Qed.

(** C8 (as amended).  Whatever the configuration read does, the Provider
    returns a map: the five built-in cities when the read raises, when it
    gives no row, and when a row lacks its name or a coordinate; otherwise
    the map has one entry per distinct slug of the rows, each taken from
    the last row with that slug, so one entry per row, in row order, when
    the slugs are pairwise distinct.  The slug is the name lowered by
    str.lower, whatever that function is, with its spaces replaced. *)
Theorem C8_location_provider_fallback (get_records : result (list ConfigRow)) :
  exists locations log,
    get_active_locations lower get_records = Ok (locations, log) /\
    List.length DEFAULT_LOCATIONS = 5%nat /\
    match get_records with
    | Raise _ => locations = DEFAULT_LOCATIONS
    | Ok [] => locations = DEFAULT_LOCATIONS
    | Ok rows =>
        if forallb complete_row rows then
          NoDup (keys locations) /\
          (forall k, In k (keys locations) <-> In k (slugs lower rows)) /\
          (forall k, dict_get locations k = last_with_slug lower rows k) /\
          (NoDup (slugs lower rows) ->
           locations = entries lower rows /\ List.length locations = List.length rows)
        else locations = DEFAULT_LOCATIONS
    end.
Proof.
  unfold get_active_locations.
  destruct get_records as [[|row rest]|e]; cbn [bind try_except].
  - eexists _, _. repeat split.
  - destruct (forallb complete_row (row :: rest)) eqn:Hall.
    + destruct (provider_run (row :: rest) Hall []) as (locations & Hrun & Hget & Hkeys & Hnd & Happ).
      rewrite Hrun. cbn [bind try_except].
      eexists _, _. split; [reflexivity|]. split; [reflexivity|].
      split; [apply Hnd; constructor|]. split; [|split].
      * intros k. rewrite Hkeys. cbn [keys map In]. tauto.
      * intros k. rewrite Hget. cbn [dict_get].
        destruct (last_with_slug lower (row :: rest) k); reflexivity.
      * intros Hslugs. rewrite (Happ Hslugs); [|intros k []].
        cbn [app]. split; [reflexivity | now apply entries_length].
    + destruct (provider_run_incomplete (row :: rest) Hall []) as [e He].
      rewrite He. cbn [bind try_except].
      eexists _, _. repeat split.
  - eexists _, _. repeat split.
Qed.

(** Whatever str.lower does, two rows with the same name have the same
    slug, and the second takes the place of the first. *)
Lemma rows_sharing_a_name :
  exists locations log,
    get_active_locations lower (Ok [paris_france; paris_texas]) = Ok (locations, log) /\
    List.length locations = 1%nat /\
    option_map country (dict_get locations (slug_of lower "Paris"))
    = Some (Some "United States"%string).
Proof.
  unfold get_active_locations.
  cbn [bind try_except for_each add_location row_name py_float paris_france paris_texas
       row_city_name row_latitude row_longitude row_country row_timezone dict_set].
  rewrite String.eqb_refl. cbn [bind try_except].
  eexists _, _. split; [reflexivity|]. split; [reflexivity|].
  cbn [dict_get]. rewrite String.eqb_refl. reflexivity.
Qed.

End Provider.

(** C8, on a read that raises, a read without rows, and a read of two rows
    with different slugs. *)
Lemma C8_location_provider_fallback_witness :
  (exists log, get_active_locations ascii_lower (Raise DatabaseError) = Ok (DEFAULT_LOCATIONS, log)) /\
  (exists log, get_active_locations ascii_lower (Ok []) = Ok (DEFAULT_LOCATIONS, log)) /\
  (exists locations log,
     get_active_locations ascii_lower (Ok [new_york_row; paris_france]) = Ok (locations, log) /\
     keys locations = ["new_york"; "paris"]%string).
Proof.
  destruct (C8_location_provider_fallback ascii_lower (Raise DatabaseError)) as (l1 & g1 & H1 & _ & E1).
  destruct (C8_location_provider_fallback ascii_lower (Ok [])) as (l2 & g2 & H2 & _ & E2).
  destruct (C8_location_provider_fallback ascii_lower (Ok [new_york_row; paris_france]))
    as (l3 & g3 & H3 & _ & E3).
  cbn [forallb complete_row new_york_row paris_france row_city_name
       row_latitude row_longitude andb] in E3.
  destruct E3 as (_ & _ & _ & E3).
  assert (Hnd : NoDup (slugs ascii_lower [new_york_row; paris_france])).
  { cbn. repeat constructor; cbn; intuition discriminate. }
  destruct (E3 Hnd) as [E3' _].
  subst l1 l2 l3.
  split; [now exists g1|]. split; [now exists g2|].
  exists (entries ascii_lower [new_york_row; paris_france]), g3. split; [exact H3 | reflexivity].
Defined.

(** C8 as stated fails: two active rows for two cities called Paris give
    one entry, the second row's.  The name is ASCII, where str.lower is
    [ascii_lower]. *)
Lemma C8_counterexample_rows_sharing_a_slug :
  exists locations log,
    get_active_locations ascii_lower (Ok [paris_france; paris_texas]) = Ok (locations, log) /\
    List.length locations = 1%nat /\
    List.length [paris_france; paris_texas] = 2%nat /\
    option_map country (dict_get locations "paris") = Some (Some "United States"%string).
Proof.
  eexists _, _. split; [vm_compute; reflexivity|]. repeat split.
Qed.

(** ** The Weather Fetcher *)

Section Fetcher.

(** The API, call by call. *)
Variable http_run : nat -> Endpoint -> http_outcome.

(** One iteration never raises: it sends one request, and stores the
    observation when the answer gives one. *)
Lemma fetch_step_spec (st : FetchState) (key : string) (location : Location) :
  exists st',
    fetch_step http_run st (key, location) = Ok st' /\
    requests_sent st' = (requests_sent st ++ [endpoint_of location])%list /\
    weather_data st' =
      match observation_of location
              (http_run (List.length (requests_sent st)) (endpoint_of location)) with
      | Some obs => dict_set (weather_data st) key obs
      | None => weather_data st
      end.
Proof.
  unfold fetch_step, fetch_try, observation_of.
  destruct (http_run (List.length (requests_sent st)) (endpoint_of location))
    as [e|status json]; cbn [try_except].
  - eexists. repeat split.
  - destruct (status =? 200).
    + destruct json as [[ | | | | | |d]|e]; cbn [bind py_get_default try_except];
        eexists; repeat split.
    + destruct json as [[ | | | | | |d]|e]; cbn [try_except]; eexists; repeat split.
Qed.

Lemma fetch_run_requests (locations : dict Location) :
  forall st0, exists st,
    for_each (fetch_step http_run) locations st0 = Ok st /\
    requests_sent st
    = (requests_sent st0 ++ map (fun item => endpoint_of (snd item)) locations)%list.
Proof.
  induction locations as [|[key location] rest IH]; intros st0; cbn [for_each map snd].
  - exists st0. now rewrite app_nil_r.
  - destruct (fetch_step_spec st0 key location) as (st1 & -> & Hreq & _).
    cbn [bind]. destruct (IH st1) as (st & Hrun & Hsent).
    exists st. split; [exact Hrun|]. rewrite Hsent, Hreq. now rewrite <- app_assoc.
Qed.

Lemma fetched_keys (locations : dict Location) :
  forall n k, In k (keys (fetched http_run n locations)) -> In k (keys locations).
Proof.
  unfold keys. induction locations as [|[key location] rest IH]; intros n k;
    cbn [fetched map fst In]; [tauto|].
  destruct (observation_of location (http_run n (endpoint_of location))).
  - cbn [map fst In]. intros [H|H]; [now left | right; now apply IH with (n := S n)].
  - intros H. right. now apply IH with (n := S n).
Qed.

Lemma fetch_run_data (locations : dict Location) :
  NoDup (keys locations) ->
  forall st0,
    (forall k, In k (keys (weather_data st0)) -> ~ In k (keys locations)) ->
    forall st, for_each (fetch_step http_run) locations st0 = Ok st ->
    weather_data st
    = (weather_data st0
       ++ fetched http_run (List.length (requests_sent st0)) locations)%list.
Proof.
  unfold keys.
  induction locations as [|[key location] rest IH]; intros Hnd st0 Hfresh st;
    cbn [for_each fetched map fst].
  - intros [= <-]. now rewrite app_nil_r.
  - cbn [map fst] in Hnd, Hfresh. inversion Hnd as [|k0 l0 Hnotin Hnd']; subst.
    destruct (fetch_step_spec st0 key location) as (st1 & -> & Hreq & Hdata).
    cbn [bind]. intros Hrun.
    assert (Hkey : ~ In key (keys (weather_data st0))).
    { intros Hin. apply (Hfresh key Hin). now left. }
    rewrite (IH Hnd' st1) with (st := st); [| |exact Hrun].
    + rewrite Hreq, length_app. cbn [List.length].
      replace (List.length (requests_sent st0) + 1)%nat
        with (S (List.length (requests_sent st0))) by lia.
      rewrite Hdata.
      destruct (observation_of location
                  (http_run (List.length (requests_sent st0)) (endpoint_of location))).
      * rewrite (dict_set_new _ _ _ Hkey). now rewrite <- app_assoc.
      * reflexivity.
    + intros k Hin Hrest. rewrite Hdata in Hin.
      destruct (observation_of location
                  (http_run (List.length (requests_sent st0)) (endpoint_of location))).
      * rewrite (dict_set_new _ _ _ Hkey) in Hin. unfold keys in Hin.
        rewrite map_app in Hin. apply in_app_or in Hin.
        destruct Hin as [Hin|[<-|[]]].
        -- apply (Hfresh k Hin). now right.
        -- now apply Hnotin.
      * apply (Hfresh k Hin). now right.
Qed.

Lemma fetched_lookup (locations : dict Location) :
  NoDup (keys locations) ->
  forall n i key location,
    nth_error locations i = Some (key, location) ->
    dict_get (fetched http_run n locations) key
    = observation_of location (http_run (n + i)%nat (endpoint_of location)).
Proof.
  unfold keys.
  induction locations as [|[k0 l0] rest IH]; intros Hnd n i key location Hnth.
  - destruct i; discriminate.
  - cbn [map fst] in Hnd. inversion Hnd as [|? ? Hnotin Hnd']; subst.
    destruct i as [|i]; cbn [nth_error] in Hnth.
    + injection Hnth as -> ->. rewrite Nat.add_0_r. cbn [fetched].
      destruct (observation_of location (http_run n (endpoint_of location))) as [obs|].
      * cbn [dict_get]. now rewrite String.eqb_refl.
      * apply dict_get_not_key. intros Hin. apply Hnotin.
        now apply fetched_keys in Hin.
    + assert (Hne : k0 <> key).
      { intros ->. apply Hnotin. apply nth_error_In in Hnth.
        now apply (in_map fst) in Hnth. }
      cbn [fetched].
      replace (n + S i)%nat with (S n + i)%nat by lia.
      destruct (observation_of l0 (http_run n (endpoint_of l0))).
      * cbn [dict_get]. destruct (String.eqb_spec k0 key); [contradiction|].
        now apply IH.
      * now apply IH.
Qed.

(** C5.  The Fetcher returns for every location map and every behaviour of
    the API: it sends one request per location, in order, whatever the
    earlier calls did; the map it returns holds, in order, exactly the
    locations whose own call answered 200 with a JSON object, and the entry
    of a location depends on that call alone. *)
Theorem C5_fetcher_partial_failure (locations : dict Location) :
  NoDup (keys locations) ->
  exists st,
    extract_weather_data http_run locations = Ok st /\
    requests_sent st = map (fun item => endpoint_of (snd item)) locations /\
    weather_data st = fetched http_run 0 locations /\
    (forall i key location,
       nth_error locations i = Some (key, location) ->
       dict_get (weather_data st) key
       = observation_of location (http_run i (endpoint_of location))).
Proof.
  intros Hnd. unfold extract_weather_data.
  destruct (fetch_run_requests locations (mkfetch [] [] [])) as (st & Hrun & Hreq).
  exists st. split; [exact Hrun|]. split; [exact Hreq|].
  assert (Hdata : weather_data st = fetched http_run 0 locations).
  { apply (fetch_run_data locations Hnd (mkfetch [] [] [])); [|exact Hrun].
    intros k []. }
  split; [exact Hdata|].
  intros i key location Hnth. rewrite Hdata.
  now apply (fetched_lookup locations Hnd 0 i).
Qed.

End Fetcher.

(** C5, on three locations of which the second is answered with status
    503: the map has the two other entries. *)
Lemma C5_fetcher_partial_failure_witness :
  exists st,
    extract_weather_data sample_http_run three_locations = Ok st /\
    keys (weather_data st) = ["london"; "tokyo"]%string /\
    List.length (requests_sent st) = 3%nat.
Proof.
  assert (Hnd : NoDup (keys three_locations)).
  { cbn. repeat constructor; cbn; intuition discriminate. }
  destruct (C5_fetcher_partial_failure sample_http_run three_locations Hnd)
    as (st & Hrun & Hreq & Hdata & _).
  exists st. split; [exact Hrun|]. rewrite Hdata, Hreq. split; reflexivity.
Defined.

(** ** The Record Normalizer *)

Section Normalizer.

(** The host of the run and the two clock readings taken at entry. *)
Variable host : Host.
Variables cl cu : datetime.

(** *** What a successful try block has done *)

Lemma transform_try_inv (data : RawObservation) (w : list log_entry)
    (r : WeatherRecord) :
  transform_try host cl cu data = (w, Ok r) ->
  exists wc ts,
    py_get_default (raw_current data) "weather_code" (PInt 0) = Ok wc /\
    parse_sun_time host (raw_daily data) "sunrise" = Ok (sunrise r) /\
    parse_sun_time host (raw_daily data) "sunset" = Ok (sunset r) /\
    py_get (raw_current data) "time" = Ok ts /\
    resolve_timestamp host cl cu ts = ((timestamp r, timestamp_utc r), w) /\
    weathercode r = wc /\
    describe_code (float_repr host) wc = Ok (weather_description r).
Proof.
  unfold transform_try.
  destruct (py_get_default (raw_current data) "weather_code" (PInt 0)) as [wc|] eqn:Ewc;
    simpl; [|discriminate].
  destruct (parse_sun_time host (raw_daily data) "sunrise") as [sr|] eqn:Esr; simpl; [|discriminate].
  destruct (parse_sun_time host (raw_daily data) "sunset") as [ss|] eqn:Ess; simpl; [|discriminate].
  destruct (py_get (raw_current data) "time") as [ts|] eqn:Ets; simpl; [|discriminate].
  destruct (resolve_timestamp host cl cu ts) as [[l u] w'] eqn:Er.
  intros H. injection H as <- H.
  do 8 (apply bind_Ok in H; destruct H as [? [_ H]]).
  apply bind_Ok in H. destruct H as [desc [Hd H]].
  injection H as <-. simpl.
  exists wc, ts. repeat split; auto.
Qed.

(** *** The timestamp block *)

Lemma resolve_timestamp_cases (ts : pyval) :
  fst (resolve_timestamp host cl cu ts) =
  match classify host ts with
  | Aware parsed =>
      match astimezone_local (local_utcoffset host) parsed, astimezone_utc parsed with
      | Ok l, Ok u => (replace_tzinfo l None, u)
      | _, _ => (cl, cu)
      end
  | Naive parsed => (parsed, replace_tzinfo parsed (Some 0))
  | _ => (cl, cu)
  end.
Proof.
  unfold resolve_timestamp, classify.
  destruct (truthy ts) eqn:Et; [|reflexivity].
  unfold parse_api_timestamp.
  destruct ts as [ |b|z|q|s|l|d]; cbn [py_contains_T py_replace_Z bind fst];
    try reflexivity.
  - destruct (contains_char "T" s); [|reflexivity].
    destruct (fromisoformat host (replace_Z s)) as [p|e]; cbn [bind fst]; [|reflexivity].
    destruct (tzinfo p) as [off|]; [|reflexivity].
    destruct (astimezone_local (local_utcoffset host) p) as [lo|]; cbn [bind fst]; [|reflexivity].
    destruct (astimezone_utc p) as [u|]; reflexivity.
  - destruct (existsb is_str_T l); reflexivity.
  - destruct (dict_get d "T"); reflexivity.
Qed.

Lemma py_get_time (data : RawObservation) (ts : pyval) :
  py_get (raw_current data) "time" = Ok ts -> ts = api_time data.
Proof.
  unfold py_get, api_time. destruct (raw_current data); try discriminate.
  now intros [= <-].
Qed.

Lemma transform_try_timestamps (data : RawObservation) (w : list log_entry)
    (r : WeatherRecord) :
  transform_try host cl cu data = (w, Ok r) ->
  timestamps_as_resolved host cl cu (api_time data) r.
Proof.
  intros H. apply transform_try_inv in H.
  destruct H as (wc & ts & _ & _ & _ & Hts & Hres & _).
  apply py_get_time in Hts. subst ts.
  pose proof (resolve_timestamp_cases (api_time data)) as Hc.
  rewrite Hres in Hc. cbn [fst] in Hc.
  unfold timestamps_as_resolved.
  destruct (classify host (api_time data)) as [ | | | |p|p];
    try (injection Hc as -> ->; split; reflexivity).
  - destruct (astimezone_local (local_utcoffset host) p) as [l|] eqn:El;
      [|injection Hc as -> ->; split; reflexivity].
    destruct (astimezone_utc p) as [u|] eqn:Eu;
      [|injection Hc as -> ->; split; reflexivity].
    injection Hc as -> ->.
    apply astimezone_utc_instant in Eu. destruct Eu as [Hz Hi].
    apply astimezone_local_instant in El.
    repeat split; assumption.
  - injection Hc as -> ->. repeat split.
    unfold instant, wall_us. cbn [replace_tzinfo year month day hour minute second
                                   microsecond tzinfo]. lia.
Qed.

Lemma falls_back_timestamps (ts : pyval) (r : WeatherRecord) :
  timestamps_as_resolved host cl cu ts r -> falls_back host ts = true ->
  timestamp r = cl /\ timestamp_utc r = cu.
Proof.
  unfold timestamps_as_resolved, falls_back.
  destruct (classify host ts) as [ | | | |p|p]; try (intros H _; exact H).
  - destruct (astimezone_local (local_utcoffset host) p) as [l|];
      [destruct (astimezone_utc p) as [u|]|]; try (intros H _; exact H).
    intros _ [=].
  - intros _ [=].
Qed.

(** *** The loop *)

Lemma transform_run (raw : dict RawObservation) :
  forall st0, exists st,
    for_each (transform_step host cl cu) raw st0 = Ok st /\
    transformed_records st = (transformed_records st0 ++ records_of host cl cu raw)%list.
Proof.
  induction raw as [|[key data] raw IH]; intros st0; cbn [for_each records_of flat_map].
  - exists st0. now rewrite app_nil_r.
  - unfold transform_step at 1. cbn [snd].
    destruct (transform_try host cl cu data) as [w [r|e]] eqn:E;
      cbn [bind try_except snd].
    + destruct (IH (mktransform (transformed_records st0 ++ [r])
                   (transform_log st0 ++ w
                    ++ [mklog INFO "Transformed weather data" (city_name r)])))
        as [st [Hrun Hrec]].
      exists st. split; [exact Hrun|]. rewrite Hrec.
      cbn [transformed_records]. now rewrite <- app_assoc.
    + destruct (IH (mktransform (transformed_records st0)
                   (transform_log st0 ++ w
                    ++ [mklog ERROR "Error transforming data" key])))
        as [st [Hrun Hrec]].
      exists st. split; [exact Hrun|]. rewrite Hrec. reflexivity.
Qed.

Lemma transform_weather_data_records (raw : dict RawObservation) :
  exists st,
    transform_weather_data host cl cu raw = Ok st /\
    transformed_records st = records_of host cl cu raw.
Proof.
  destruct (transform_run raw (mktransform [] [])) as [st [Hrun Hrec]].
  exists st. split; assumption.
Qed.

Lemma records_of_In (raw : dict RawObservation) (key : string)
    (data : RawObservation) (w : list log_entry) (r : WeatherRecord) :
  In (key, data) raw -> transform_try host cl cu data = (w, Ok r) ->
  In r (records_of host cl cu raw).
Proof.
  intros Hin Htry. unfold records_of. apply in_flat_map.
  exists (key, data). split; [assumption|]. cbn [snd]. rewrite Htry. now left.
Qed.

Lemma records_of_inv (raw : dict RawObservation) (r : WeatherRecord) :
  In r (records_of host cl cu raw) ->
  exists key data w, In (key, data) raw /\ transform_try host cl cu data = (w, Ok r).
Proof.
  unfold records_of. intros H. apply in_flat_map in H.
  destruct H as [[key data] [Hin H]]. cbn [snd] in H.
  destruct (transform_try host cl cu data) as [w [r'|e]] eqn:E; cbn [snd] in H.
  - destruct H as [<-|[]]. now exists key, data, w.
  - destruct H.
Qed.

(** C1 (as amended).  A run of the Normalizer returns, and each record it
    keeps comes from an observation of the run and carries the timestamps
    of that observation's case: an aware API timestamp whose conversions to
    the local zone and to UTC both stay in the calendar gives that instant
    in UTC (offset zero) and, stripped of its zone, in local time; a naive
    one is taken as UTC; a missing, non-string, separator-less or
    unparsable one, and an aware one whose conversion overflows, give the
    two readings of the clock taken once at entry, so that any two such
    records of the run agree on both fields. *)
Theorem C1_timestamp_resolution (raw : dict RawObservation) :
  exists st,
    transform_weather_data host cl cu raw = Ok st /\
    (forall r, In r (transformed_records st) ->
       exists key data w,
         In (key, data) raw /\ transform_try host cl cu data = (w, Ok r)) /\
    (forall key data w r,
       In (key, data) raw -> transform_try host cl cu data = (w, Ok r) ->
       In r (transformed_records st) /\
       timestamps_as_resolved host cl cu (api_time data) r) /\
    (forall key1 data1 w1 r1 key2 data2 w2 r2,
       In (key1, data1) raw -> transform_try host cl cu data1 = (w1, Ok r1) ->
       In (key2, data2) raw -> transform_try host cl cu data2 = (w2, Ok r2) ->
       falls_back host (api_time data1) = true ->
       falls_back host (api_time data2) = true ->
       timestamp r1 = timestamp r2 /\ timestamp_utc r1 = timestamp_utc r2).
Proof.
  destruct (transform_weather_data_records raw) as [st [Hrun Hrec]].
  exists st. split; [exact Hrun|]. split; [|split].
  - intros r Hr. rewrite Hrec in Hr. now apply records_of_inv in Hr.
  - intros key data w r Hin Htry. split.
    + rewrite Hrec. now apply records_of_In with (key := key) (data := data) (w := w).
    + now apply transform_try_timestamps with (w := w).
  - intros key1 data1 w1 r1 key2 data2 w2 r2 _ H1 _ H2 F1 F2.
    apply transform_try_timestamps in H1, H2.
    destruct (falls_back_timestamps _ _ H1 F1) as [-> ->].
    destruct (falls_back_timestamps _ _ H2 F2) as [-> ->].
    split; reflexivity.
Qed.

(** *** Weather codes in the record *)

(** C6.  For every integer weather code the lookup gives a description,
    never an exception and never an empty string: the table's entry when
    the code is one of its keys, "Unknown (<code>)" otherwise; a record
    built from an observation with that code carries the code and that
    description. *)
Theorem C6_weather_code_lookup_total (code : Z) :
  exists d : string,
    describe_code (float_repr host) (PInt code) = Ok d /\
    d <> EmptyString /\
    (forall m, In (code, m) weather_codes -> d = m) /\
    (~ In code (map fst weather_codes) -> d = unknown (str_of_int code)) /\
    (forall data w r,
       py_get_default (raw_current data) "weather_code" (PInt 0) = Ok (PInt code) ->
       transform_try host cl cu data = (w, Ok r) ->
       weathercode r = PInt code /\ weather_description r = d).
Proof.
  exists (describe_int code). split; [reflexivity|].
  split; [apply describe_int_nonempty|].
  split; [|split].
  - intros m Hm. unfold describe_int. now rewrite (weather_codes_functional _ _ Hm).
  - intros Hn. unfold describe_int. now rewrite (codes_get_None _ _ Hn).
  - intros data w r Hcode Htry.
    apply transform_try_inv in Htry.
    destruct Htry as (wc & ts & Hwc & _ & _ & _ & _ & Hw & Hd).
    rewrite Hcode in Hwc. injection Hwc as <-.
    split; [assumption|]. cbn [describe_code] in Hd. now injection Hd.
Qed.

(** C9.  When the "current" object has no weather_code key, a record built
    from it has code 0 and description "Clear sky", and the try block does
    exactly what it does when the key is there with value 0. *)
Theorem C9_missing_code_reads_as_clear_sky (location : Location)
    (current : dict pyval) (daily api : pyval) :
  dict_get current "weather_code" = None ->
  (forall w r,
     transform_try host cl cu (mkraw location (PDict current) daily api) = (w, Ok r) ->
     weathercode r = PInt 0 /\ weather_description r = "Clear sky"%string) /\
  transform_try host cl cu (mkraw location (PDict current) daily api)
  = transform_try host cl cu
      (mkraw location (PDict (current ++ [("weather_code"%string, PInt 0)])) daily api).
Proof.
  intros Hnone. split.
  - intros w r Htry. apply transform_try_inv in Htry.
    destruct Htry as (wc & ts & Hwc & _ & _ & _ & _ & Hw & Hd).
    cbn [raw_current py_get_default] in Hwc. rewrite Hnone in Hwc.
    injection Hwc as <-. split; [assumption|].
    cbn [describe_code] in Hd. now injection Hd.
  - unfold transform_try. cbn [raw_current raw_daily raw_location].
    unfold py_get, py_get_default.
    rewrite (dict_get_app_new _ _ (PInt 0) Hnone), Hnone.
    rewrite !dict_get_app_other by reflexivity.
    reflexivity.
Qed.

(** *** Sunrise and sunset *)





End Normalizer.

(** *** The sample run *)

(** C1, on the sample run: "2024-06-01T12:00:00+02:00" gives 10:00:00 UTC,
    the naive "2024-06-01T12:00:00" gives 12:00:00 UTC, and the three
    fallback records all carry the clock reading of entry. *)
Lemma C1_timestamp_resolution_witness :
  exists st,
    transform_weather_data host_kolkata sample_local_now sample_utc_now sample_raw = Ok st /\
    map timestamp_utc (transformed_records st) =
      [ mkdt 2024 6 1 10 0 0 0 (Some 0); mkdt 2024 6 1 12 0 0 0 (Some 0);
        sample_utc_now; sample_utc_now; sample_utc_now ] /\
    map timestamp (transformed_records st) =
      [ mkdt 2024 6 1 15 30 0 0 None; mkdt 2024 6 1 12 0 0 0 None;
        sample_local_now; sample_local_now; sample_local_now ].
Proof.
  destruct (C1_timestamp_resolution host_kolkata sample_local_now sample_utc_now sample_raw)
    as [st [Hrun _]].
  exists st. split; [exact Hrun|].
  vm_compute in Hrun. injection Hrun as <-. split; reflexivity.
Defined.

(** C1 as stated fails: "9999-12-31T23:59:59+00:00" parses to an aware
    timestamp whose instant in UTC is 9999-12-31 23:59:59, yet on a host
    east of Greenwich the record carries the clock reading of entry; and
    "0001-01-01T00:00:00+02:00" parses to an aware timestamp whose instant
    lies before the calendar, so the record carries the clock reading on
    any host. *)
Lemma C1_counterexample_aware_timestamp_falls_back :
  (exists parsed u w r,
     classify host_kolkata (PStr "9999-12-31T23:59:59+00:00") = Aware parsed /\
     astimezone_utc parsed = Ok u /\
     transform_try host_kolkata sample_local_now sample_utc_now
       (observation [("time"%string, PStr "9999-12-31T23:59:59+00:00")] []) = (w, Ok r) /\
     timestamp_utc r = sample_utc_now /\
     instant (timestamp_utc r) <> instant parsed) /\
  (exists parsed w r,
     classify host_kolkata (PStr "0001-01-01T00:00:00+02:00") = Aware parsed /\
     transform_try host_kolkata sample_local_now sample_utc_now
       (observation [("time"%string, PStr "0001-01-01T00:00:00+02:00")] []) = (w, Ok r) /\
     timestamp_utc r = sample_utc_now /\
     instant (timestamp_utc r) <> instant parsed).
Proof.
  split.
  - eexists _, _, _, _. split; [vm_compute; reflexivity|].
    split; [vm_compute; reflexivity|].
    split; [vm_compute; reflexivity|].
    split; [reflexivity|]. vm_compute. discriminate.
  - eexists _, _, _. split; [vm_compute; reflexivity|].
    split; [vm_compute; reflexivity|].
    split; [reflexivity|]. vm_compute. discriminate.
Qed.

(** C6, on the sample run: code 3 is "Overcast", code 100 is not in the
    table and shows as "Unknown (100)". *)
Lemma C6_weather_code_lookup_total_witness :
  describe_code (float_repr host_kolkata) (PInt 3) = Ok "Overcast"%string /\
  describe_code (float_repr host_kolkata) (PInt 100) = Ok "Unknown (100)"%string /\
  describe_code (float_repr host_kolkata) (PInt (-7)) = Ok "Unknown (-7)"%string /\
  forall w r,
    transform_try host_kolkata sample_local_now sample_utc_now
      (observation [("time"%string, PStr "2024-06-01 12:00:00");
                    ("weather_code"%string, PInt 100)] []) = (w, Ok r) ->
    weather_description r = "Unknown (100)"%string.
Proof.
  destruct (C6_weather_code_lookup_total host_kolkata sample_local_now sample_utc_now 3)
    as (d3 & E3 & _ & M3 & _).
  destruct (C6_weather_code_lookup_total host_kolkata sample_local_now sample_utc_now 100)
    as (d100 & E100 & _ & _ & U100 & R100).
  destruct (C6_weather_code_lookup_total host_kolkata sample_local_now sample_utc_now (-7))
    as (d7 & E7 & _ & _ & U7 & _).
  split; [|split; [|split]].
  - rewrite E3. f_equal. apply M3. unfold weather_codes. cbn [In]. tauto.
  - rewrite E100. f_equal. rewrite U100; [reflexivity | not_a_code].
  - rewrite E7. f_equal. rewrite U7; [reflexivity | not_a_code].
  - intros w r Htry.
    pose proof (fun H => R100 _ w r H Htry) as R.
    destruct (R eq_refl) as [_ ->].
    rewrite U100; [reflexivity | not_a_code].
Defined.

(** C9, on the observation with empty "current" and "daily" objects. *)
Lemma C9_missing_code_reads_as_clear_sky_witness :
  exists w r,
    transform_try host_kolkata sample_local_now sample_utc_now (observation [] []) = (w, Ok r) /\
    weathercode r = PInt 0 /\ weather_description r = "Clear sky"%string.
Proof.
  destruct (transform_try host_kolkata sample_local_now sample_utc_now (observation [] []))
    as [w [r|e]] eqn:E; [|vm_compute in E; discriminate E].
  exists w, r. split; [reflexivity|].
  exact (proj1 (C9_missing_code_reads_as_clear_sky host_kolkata sample_local_now
                  sample_utc_now sample_location [] (PDict []) _ eq_refl) w r E).
Defined.



(** ** The Record Loader *)

Lemma count_true_cons (b : bool) (bs : list bool) :
  count_true (b :: bs) = (if b then 1 else 0) + count_true bs.
Proof. unfold count_true. destruct b; cbn [filter List.length]; lia. Qed.

Lemma count_false_cons (b : bool) (bs : list bool) :
  count_false (b :: bs) = (if b then 0 else 1) + count_false bs.
Proof. unfold count_false. destruct b; cbn [filter negb List.length]; lia. Qed.

Lemma counts_total (bs : list bool) :
  count_true bs + count_false bs = Z.of_nat (List.length bs)
  /\ 0 <= count_true bs /\ 0 <= count_false bs.
Proof.
  induction bs as [|b bs IH].
  - unfold count_true, count_false. cbn. lia.
  - rewrite count_true_cons, count_false_cons. cbn [List.length]. destruct b; lia.
Qed.

Lemma errors_logged_app (l1 l2 : list log_entry) :
  errors_logged (l1 ++ l2) = errors_logged l1 + errors_logged l2.
Proof. unfold errors_logged. rewrite filter_app, length_app. lia. Qed.

Lemma errors_logged_one (e : log_entry) :
  errors_logged [e] = if is_error e then 1 else 0.
Proof. unfold errors_logged. cbn [filter]. destruct (is_error e); reflexivity. Qed.

Section Loader.

(** The store and its insert. *)
Context {DB : Type} (pg_run : DB -> WeatherRecord -> result DB).

Lemma replay_length (records : list WeatherRecord) :
  forall d, List.length (fst (replay pg_run d records)) = List.length records.
Proof.
  induction records as [|r rest IH]; intros d; cbn [replay]; [reflexivity|].
  destruct (pg_run d r) as [d'|e].
  - specialize (IH d'). destruct (replay pg_run d' rest) as [bs df].
    cbn [fst List.length] in *. now rewrite IH.
  - specialize (IH d). destruct (replay pg_run d rest) as [bs df].
    cbn [fst List.length] in *. now rewrite IH.
Qed.

Lemma load_run (records : list WeatherRecord) :
  forall st0, exists st,
    for_each (load_step pg_run) records st0 = Ok st /\
    db st = snd (replay pg_run (db st0) records) /\
    loaded_records st = loaded_records st0 + count_true (fst (replay pg_run (db st0) records)) /\
    failed_records st = failed_records st0 + count_false (fst (replay pg_run (db st0) records)) /\
    inserts_attempted st = (inserts_attempted st0 ++ records)%list /\
    errors_logged (load_log st)
    = errors_logged (load_log st0) + count_false (fst (replay pg_run (db st0) records)).
Proof.
  induction records as [|r rest IH]; intros st0; cbn [for_each replay].
  - exists st0. unfold count_true, count_false. cbn. rewrite app_nil_r.
    repeat split; lia.
  - unfold load_step at 1.
    destruct (pg_run (db st0) r) as [d'|e]; cbn [bind try_except].
    + match goal with |- context [for_each _ rest ?s] => destruct (IH s) as (st & Hrun & Hdb & Hl & Hf & Hi & He) end.
      cbn [db loaded_records failed_records inserts_attempted load_log] in *.
      destruct (replay pg_run d' rest) as [bs df].
      cbn [fst snd] in *.
      exists st. rewrite count_true_cons, count_false_cons.
      rewrite errors_logged_app, errors_logged_one in He.
      cbn [is_error level] in He. rewrite <- app_assoc in Hi.
      repeat split; try assumption; lia.
    + match goal with |- context [for_each _ rest ?s] => destruct (IH s) as (st & Hrun & Hdb & Hl & Hf & Hi & He) end.
      cbn [db loaded_records failed_records inserts_attempted load_log] in *.
      destruct (replay pg_run (db st0) rest) as [bs df].
      cbn [fst snd] in *.
      exists st. rewrite count_true_cons, count_false_cons.
      rewrite errors_logged_app, errors_logged_one in He.
      cbn [is_error level] in He. rewrite <- app_assoc in Hi.
      repeat split; try assumption; lia.
Qed.

(** C3 (as amended).  The task returns for every input.  On the empty
    sequence it returns at once a dict with loaded_records and
    failed_records at zero and no total_records entry, attempts no insert
    and leaves the store as it was; on a non-empty sequence the dict has
    all three counters. *)
Theorem C3_loader_result_counters (d0 : DB) (records : list WeatherRecord) :
  exists out,
    load_weather_data pg_run d0 records = Ok out /\
    match records with
    | [] =>
        load_result out = [("loaded_records"%string, 0); ("failed_records"%string, 0)] /\
        dict_get (load_result out) "total_records" = None /\
        inserts out = [] /\ db_after out = d0
    | _ :: _ =>
        keys (load_result out) = ["loaded_records"; "failed_records"; "total_records"]%string
    end.
Proof.
  destruct records as [|r0 rest].
  - eexists. split; [reflexivity|]. repeat split.
  - unfold load_weather_data.
    destruct (load_run (r0 :: rest) (mkload d0 0 0 [] [])) as (st & Hrun & _).
    rewrite Hrun. cbn [bind]. eexists. split; reflexivity.
Qed.

(** C4.  On a non-empty sequence the task returns; every record is given to
    the store exactly once, in order; the counters are the numbers of
    inserts that succeeded and that raised, each failure is logged as one
    error, and loaded + failed = total = the number of records. *)
Theorem C4_loader_partial_failure_accounting (d0 : DB) (records : list WeatherRecord) :
  records <> [] ->
  exists out loaded failed,
    load_weather_data pg_run d0 records = Ok out /\
    inserts out = records /\
    db_after out = snd (replay pg_run d0 records) /\
    dict_get (load_result out) "loaded_records" = Some loaded /\
    dict_get (load_result out) "failed_records" = Some failed /\
    dict_get (load_result out) "total_records" = Some (Z.of_nat (List.length records)) /\
    loaded = count_true (fst (replay pg_run d0 records)) /\
    failed = count_false (fst (replay pg_run d0 records)) /\
    errors_logged (log_lines out) = failed /\
    loaded + failed = Z.of_nat (List.length records).
Proof.
  intros Hne. destruct records as [|r0 rest]; [contradiction|].
  unfold load_weather_data.
  destruct (load_run (r0 :: rest) (mkload d0 0 0 [] []))
    as (st & Hrun & Hdb & Hl & Hf & Hi & He).
  rewrite Hrun. cbn [bind].
  cbn [db loaded_records failed_records inserts_attempted load_log] in *.
  exists (mkoutcome
            [("loaded_records"%string, loaded_records st);
             ("failed_records"%string, failed_records st);
             ("total_records"%string, Z.of_nat (List.length (r0 :: rest)))]
            (db st) (inserts_attempted st)
            (load_log st ++ [mklog INFO "Load summary" ""])),
    (loaded_records st), (failed_records st).
  cbn [load_result inserts db_after log_lines].
  pose proof (counts_total (fst (replay pg_run d0 (r0 :: rest)))) as (Hsum & _ & _).
  rewrite replay_length in Hsum.
  rewrite errors_logged_app, errors_logged_one. cbn [is_error level].
  change (errors_logged []) with 0 in He.
  repeat split; try reflexivity; try assumption; lia.
Qed.

End Loader.

(** C3, on the empty sequence and on the five sample records. *)
Lemma C3_loader_result_counters_witness :
  (exists out,
     load_weather_data sample_pg_run [] [] = Ok out /\
     load_result out = [("loaded_records"%string, 0); ("failed_records"%string, 0)] /\
     inserts out = []) /\
  (exists out,
     load_weather_data sample_pg_run [] five_records = Ok out /\
     keys (load_result out) = ["loaded_records"; "failed_records"; "total_records"]%string).
Proof.
  destruct (@C3_loader_result_counters _ sample_pg_run [] []) as (o1 & H1 & E1 & _ & I1 & _).
  destruct (@C3_loader_result_counters _ sample_pg_run [] five_records) as (o2 & H2 & E2).
  split; [exists o1 | exists o2]; repeat split; assumption.
Defined.

(** C3 as stated fails: the result for the empty sequence has no
    total_records counter. *)
Lemma C3_counterexample_empty_input_lacks_total :
  exists out,
    load_weather_data sample_pg_run [] [] = Ok out /\
    dict_get (load_result out) "total_records" = None.
Proof. eexists. split; reflexivity. Qed.

(** C4, on five records of which the third is refused: 4 loaded, 1 failed,
    5 in total. *)
Lemma C4_loader_partial_failure_accounting_witness :
  exists out,
    load_weather_data sample_pg_run [] five_records = Ok out /\
    load_result out
    = [("loaded_records"%string, 4); ("failed_records"%string, 1);
       ("total_records"%string, 5)] /\
    inserts out = five_records /\
    List.length (db_after out) = 4%nat.
Proof.
  assert (Hne : five_records <> []) by discriminate.
  destruct (@C4_loader_partial_failure_accounting _ sample_pg_run [] five_records Hne)
    as (out & loaded & failed & Hrun & Hins & _).
  exists out. split; [exact Hrun|].
  vm_compute in Hrun. injection Hrun as <-. repeat split; reflexivity.
Defined.

(** ** The Summary Reporter *)

Lemma round_half_even_near (x : Q) :
  (Qabs (inject_Z (round_half_even x) - x) <= 1 # 2)%Q.
Proof.
  unfold round_half_even.
  pose proof (Qfloor_le x) as Hf1. pose proof (Qlt_floor x) as Hf2.
  pose proof (Qfloor_le (2 * x)) as Hg1. pose proof (Qlt_floor (2 * x)) as Hg2.
  set (f := Qfloor x) in *. set (g := Qfloor (2 * x)) in *.
  rewrite inject_Z_plus in Hf2, Hg2.
  change (inject_Z 1) with 1%Q in Hf2, Hg2.
  assert (Hge : (2 * f <= g)%Z).
  { assert (H : (inject_Z (2 * f) < inject_Z (g + 1))%Q).
    { rewrite inject_Z_mult, inject_Z_plus.
      change (inject_Z 2) with 2%Q. change (inject_Z 1) with 1%Q. lra. }
    rewrite <- Zlt_Qlt in H. lia. }
  apply Qabs_Qle_condition.
  destruct (Z.eqb_spec (g - 2 * f) 0) as [E|E].
  - assert (Hg : (inject_Z g == 2 * inject_Z f)%Q).
    { replace g with (2 * f)%Z by lia. rewrite inject_Z_mult. reflexivity. }
    lra.
  - assert (Hg : (2 * inject_Z f + 1 <= inject_Z g)%Q).
    { assert (H : (2 * f + 1 <= g)%Z) by lia.
      rewrite Zle_Qle, inject_Z_plus, inject_Z_mult in H.
      change (inject_Z 2) with 2%Q in H. change (inject_Z 1) with 1%Q in H. exact H. }
    destruct (Qeq_bool (2 * x) (inject_Z (2 * f + 1))) eqn:T.
    + apply Qeq_bool_iff in T. rewrite inject_Z_plus, inject_Z_mult in T.
      change (inject_Z 2) with 2%Q in T. change (inject_Z 1) with 1%Q in T.
      destruct (Z.even f).
      * lra.
      * rewrite inject_Z_plus. change (inject_Z 1) with 1%Q. lra.
    + rewrite inject_Z_plus. change (inject_Z 1) with 1%Q. lra.
Qed.

Lemma round2_near (q : Q) :
  exists k : Z, round2 q = k # 100 /\ (Qabs ((k # 100) - q) <= 1 # 200)%Q.
Proof.
  unfold round2. exists (round_half_even (q * 100)). split; [reflexivity|].
  pose proof (round_half_even_near (q * 100)) as H.
  apply Qabs_Qle_condition in H. apply Qabs_Qle_condition.
  assert (E : (round_half_even (q * 100) # 100
               == inject_Z (round_half_even (q * 100)) * (1 # 100))%Q).
  { unfold Qeq. cbn [Qnum Qden Qmult inject_Z]. lia. }
  rewrite E. lra.
Qed.

Lemma rounded_if_truthy_reported (x : option Q) : reported_as x (rounded_if_truthy x).
Proof.
  unfold reported_as, rounded_if_truthy. destruct x as [q|]; [|reflexivity].
  destruct (Qeq_bool q 0) eqn:E.
  - split; [reflexivity|]. intros Hn. apply Qeq_bool_iff in E. contradiction.
  - split.
    + intros Hz. apply Qeq_bool_iff in Hz. congruence.
    + intros _. destruct (round2_near q) as [k [-> Hk]]. now exists k.
Qed.

(** C10.  When both queries answer, the summary is built, and each of the
    three averages shows in it as None when the aggregate is NULL and also
    when it is exactly zero, and otherwise as the multiple of 0.01 nearest
    to it; minimum and maximum are passed on as they are. *)
Theorem C10_zero_average_reported_as_null (row : SummaryRow) (count : Z)
    (now_utc now_local : datetime) (load_result : dict Z) :
  exists s,
    generate_weather_summary (Ok row) (Ok count) now_utc now_local load_result = Ok s /\
    reported_as (q_avg_temperature row) (avg_temperature (weather_summary s)) /\
    reported_as (q_avg_humidity row) (avg_humidity (weather_summary s)) /\
    reported_as (q_avg_pressure row) (avg_pressure (weather_summary s)) /\
    min_temperature (weather_summary s) = q_min_temperature row /\
    max_temperature (weather_summary s) = q_max_temperature row.
Proof.
  eexists. split; [reflexivity|].
  cbn [weather_summary avg_temperature avg_humidity avg_pressure min_temperature
       max_temperature].
  repeat split; try apply rounded_if_truthy_reported.
Qed.

(** C10, on a row whose temperatures average to zero while the minimum is
    -4 and the maximum 4: the average shows as None, like that of an empty
    table, and a humidity of 2.675 shows as 2.68. *)
Lemma C10_zero_average_reported_as_null_witness :
  exists s,
    generate_weather_summary (Ok zero_average_row) (Ok 2) sample_utc_now sample_local_now []
    = Ok s /\
    avg_temperature (weather_summary s) = None /\
    avg_pressure (weather_summary s) = None /\
    avg_humidity (weather_summary s) = Some (268 # 100) /\
    min_temperature (weather_summary s) = Some (-4 # 1).
Proof.
  destruct (C10_zero_average_reported_as_null zero_average_row 2 sample_utc_now
              sample_local_now []) as (s & Hrun & Ht & _ & Hp & Hmin & _).
  exists s. split; [exact Hrun|].
  cbn [reported_as zero_average_row q_avg_temperature q_avg_pressure] in Ht, Hp.
  destruct Ht as [Ht _].
  split; [apply Ht; reflexivity|]. split; [exact Hp|].
  vm_compute in Hrun. injection Hrun as <-. split; reflexivity.
Defined.


(** ** The Quality Checker *)

Lemma count_when_zero (cond : TableRow -> bool) (l : list TableRow) :
  count_when cond l = 0 <-> forall r, In r l -> cond r = false.
Proof.
  unfold count_when. induction l as [|x l IH]; cbn [filter].
  - split; [intros _ r [] | reflexivity].
  - destruct (cond x) eqn:E; cbn [List.length].
    + split; [lia|]. intros H. specialize (H x (or_introl eq_refl)). congruence.
    + rewrite IH. split.
      * intros H r [<-|Hin]; [assumption | now apply H].
      * intros H r Hin. apply H. now right.
Qed.













(** * Further properties *)

(** ** convert_to_utc *)

Section ConvertToUtc.

(** pytz's localize, and what it promises: the wall-clock reading is kept
    and a zone is attached. *)
Variable localize : datetime -> result datetime.
Hypothesis localize_attaches :
  forall d d', localize d = Ok d' -> wall_us d' = wall_us d /\ tzinfo d' <> None.

(** X1.  Whenever convert_to_utc returns, its result is in UTC (offset
    zero); for an aware argument it denotes the same instant, for a naive
    one the instant of that wall-clock reading in the zone localize
    attached; and converting the result again gives the result back. *)
Theorem convert_to_utc_keeps_instant (dt u : datetime) :
  convert_to_utc localize dt = Ok u ->
  tzinfo u = Some 0 /\
  match tzinfo dt with
  | Some _ => instant u = instant dt
  | None =>
      exists d' off,
        localize dt = Ok d' /\ tzinfo d' = Some off /\ instant u = wall_us dt - off
  end /\
  convert_to_utc localize u = Ok u.
Proof.
  unfold convert_to_utc. intros H.
  assert (Hidem : forall d, astimezone_utc d = Ok u ->
                            tzinfo u = Some 0 /\ astimezone_utc u = Ok u).
  { intros d Hd. pose proof (astimezone_utc_instant _ _ Hd) as [Htz _].
    split; [exact Htz|].
    unfold astimezone_utc in *. apply wall_us_of_wall_us in Hd as Hw.
    destruct Hw as [Hw _]. unfold instant at 1. rewrite Htz, Z.sub_0_r.
    rewrite Hw. exact Hd. }
  destruct (tzinfo dt) as [off|] eqn:Etz.
  - destruct (Hidem dt H) as [Htz Hagain]. rewrite Htz. repeat split; try assumption.
    now apply astimezone_utc_instant.
  - apply bind_Ok in H. destruct H as [d' [Hloc Hd']].
    destruct (Hidem d' Hd') as [Htz Hagain]. rewrite Htz. repeat split; try assumption.
    destruct (localize_attaches _ _ Hloc) as [Hwall Haware].
    destruct (tzinfo d') as [off|] eqn:Eoff; [|contradiction].
    exists d', off. repeat split; try assumption.
    apply astimezone_utc_instant in Hd'. destruct Hd' as [_ Hi].
    rewrite Hi. unfold instant. rewrite Eoff, Hwall. reflexivity.
Qed.

End ConvertToUtc.

(** X1, in a zone five and a half hours east: noon without a zone is
    06:30 UTC. *)
Lemma convert_to_utc_keeps_instant_witness :
  convert_to_utc (localize_fixed (19800 * US_PER_SECOND)) (mkdt 2024 6 1 12 0 0 0 None)
  = Ok (mkdt 2024 6 1 6 30 0 0 (Some 0)) /\
  convert_to_utc (localize_fixed (19800 * US_PER_SECOND)) (mkdt 2024 6 1 6 30 0 0 (Some 0))
  = Ok (mkdt 2024 6 1 6 30 0 0 (Some 0)).
Proof.
  assert (Hloc : forall d d', localize_fixed (19800 * US_PER_SECOND) d = Ok d' ->
                              wall_us d' = wall_us d /\ tzinfo d' <> None).
  { intros d d' [= <-]. split; [reflexivity | discriminate]. }
  assert (Hrun : convert_to_utc (localize_fixed (19800 * US_PER_SECOND))
                   (mkdt 2024 6 1 12 0 0 0 None) = Ok (mkdt 2024 6 1 6 30 0 0 (Some 0)))
    by (vm_compute; reflexivity).
  split; [exact Hrun|].
  exact (proj2 (proj2 (convert_to_utc_keeps_instant _ Hloc _ _ Hrun))).
Defined.

(** ** Slugs and the Provider's map *)

Lemma replace_space_length (s : string) :
  String.length (replace_space s) = String.length s.
Proof. induction s as [|c s IH]; cbn [replace_space String.length]; congruence. Qed.

Lemma replace_space_no_space (s : string) :
  has_char is_space (replace_space s) = false.
Proof.
  induction s as [|c s IH]; cbn [replace_space has_char]; [reflexivity|].
  rewrite IH, orb_false_r. unfold is_space.
  destruct (Ascii.eqb c " ") eqn:E; [reflexivity | exact E].
Qed.

Lemma replace_space_fixed (s : string) :
  has_char is_space s = false -> replace_space s = s.
Proof.
  induction s as [|c s IH]; cbn [replace_space has_char]; [reflexivity|].
  intros H. apply orb_false_iff in H. destruct H as [Hc Hs].
  unfold is_space in Hc. rewrite Hc, (IH Hs). reflexivity.
Qed.

Lemma ascii_lower_length (s : string) :
  String.length (ascii_lower s) = String.length s.
Proof. induction s as [|c s IH]; cbn [ascii_lower String.length]; congruence. Qed.

Lemma slug_char_normal (c : ascii) :
  let o := (if Ascii.eqb (lower_ascii c) " " then "_"%char else lower_ascii c) in
  is_upper o = false /\ lower_ascii o = o /\
  Nat.ltb (nat_of_ascii o) 128 = Nat.ltb (nat_of_ascii c) 128.
Proof.
  destruct c as [[] [] [] [] [] [] [] []]; vm_compute; repeat split.
Qed.

Lemma ascii_slug_normal (s : string) :
  has_char is_upper (replace_space (ascii_lower s)) = false /\
  ascii_lower (replace_space (ascii_lower s)) = replace_space (ascii_lower s) /\
  is_ascii (replace_space (ascii_lower s)) = is_ascii s.
Proof.
  induction s as [|c s (IHu & IHl & IHa)]; [repeat split|].
  cbn [ascii_lower replace_space has_char is_ascii].
  destruct (slug_char_normal c) as (Hu & Hl & Ha). cbv zeta in Hu, Hl, Ha.
  rewrite Hu, Hl, Ha, IHu, IHl, IHa. repeat split.
Qed.

(** X2.  Whatever str.lower returns, the slug holds no space, is as long
    as the lowered name, and is left as it is by a further replacement of
    spaces.  On a name of ASCII characters, where str.lower turns A-Z into
    a-z and keeps the rest, the slug has the length of the name, holds no
    upper-case ASCII letter, is ASCII, and is its own slug. *)
Theorem slug_of_normal_form (lower : string -> string) (s : string) :
  has_char is_space (slug_of lower s) = false /\
  String.length (slug_of lower s) = String.length (lower s) /\
  replace_space (slug_of lower s) = slug_of lower s /\
  ((forall t, is_ascii t = true -> lower t = ascii_lower t) ->
   is_ascii s = true ->
   String.length (slug_of lower s) = String.length s /\
   has_char is_upper (slug_of lower s) = false /\
   is_ascii (slug_of lower s) = true /\
   slug_of lower (slug_of lower s) = slug_of lower s).
Proof.
  unfold slug_of.
  split; [apply replace_space_no_space|].
  split; [apply replace_space_length|].
  split; [apply replace_space_fixed, replace_space_no_space|].
  intros Hlower Hs. rewrite (Hlower s Hs).
  destruct (ascii_slug_normal s) as (Hu & Hl & Ha). rewrite Hs in Ha.
  split; [now rewrite replace_space_length, ascii_lower_length|].
  split; [exact Hu|]. split; [exact Ha|].
  rewrite (Hlower _ Ha), Hl.
  apply replace_space_fixed, replace_space_no_space.
Qed.

(** X2, on the name New York with the ASCII case mapping. *)
Lemma slug_of_normal_form_witness :
  slug_of ascii_lower "New York" = "new_york"%string /\
  has_char is_space (slug_of ascii_lower "New York") = false /\
  has_char is_upper (slug_of ascii_lower "New York") = false /\
  slug_of ascii_lower (slug_of ascii_lower "New York") = slug_of ascii_lower "New York".
Proof.
  destruct (slug_of_normal_form ascii_lower "New York") as (Hs & _ & _ & Ha).
  destruct (Ha (fun _ _ => eq_refl) eq_refl) as (_ & Hu & _ & Hi).
  split; [reflexivity|]. split; [exact Hs|]. split; [exact Hu | exact Hi].
Defined.

Lemma default_locations_nodup : NoDup (keys DEFAULT_LOCATIONS).
Proof. cbn. repeat constructor; cbn; intuition discriminate. Qed.

Section ProviderMap.

(** str.lower of the interpreter. *)
Variable lower : string -> string.

Lemma last_with_slug_key (rows : list ConfigRow) (k : string) (l : Location) :
  last_with_slug lower rows k = Some l -> k = slug_of lower (name l).
Proof.
  induction rows as [|row rest IH]; cbn [last_with_slug]; [discriminate|].
  destruct (last_with_slug lower rest k) as [l'|].
  - intros [= ->]. now apply IH.
  - unfold location_of_row.
    destruct (row_city_name row) as [nm|]; [|discriminate].
    destruct (row_latitude row); [|discriminate].
    destruct (row_longitude row); [|discriminate].
    destruct (String.eqb_spec (slug_of lower nm) k) as [<-|]; [|discriminate].
    now intros [= <-].
Qed.

(** The Provider returns the built-in map, or a map that is not empty,
    has no key twice and is keyed by the slugs of the names. *)
Lemma provider_invariants (get_records : result (list ConfigRow)) :
  exists locations log,
    get_active_locations lower get_records = Ok (locations, log) /\
    locations <> [] /\
    NoDup (keys locations) /\
    (locations = DEFAULT_LOCATIONS \/
     forall k l, dict_get locations k = Some l -> k = slug_of lower (name l)).
Proof.
  assert (Hdef : DEFAULT_LOCATIONS <> [] /\ NoDup (keys DEFAULT_LOCATIONS) /\
                 (DEFAULT_LOCATIONS = DEFAULT_LOCATIONS \/
                  forall k l, dict_get DEFAULT_LOCATIONS k = Some l ->
                              k = slug_of lower (name l))).
  { split; [discriminate|]. split; [apply default_locations_nodup | now left]. }
  unfold get_active_locations.
  destruct get_records as [[|row rest]|e]; cbn [bind try_except].
  - eexists _, _. split; [reflexivity | exact Hdef].
  - destruct (forallb complete_row (row :: rest)) eqn:Hall.
    + destruct (provider_run lower (row :: rest) Hall [])
        as (locations & Hrun & Hget & Hkeys & Hnd & _).
      rewrite Hrun. cbn [bind try_except].
      eexists _, _. split; [reflexivity|]. split; [|split].
      * intros ->. cbn [forallb] in Hall. apply andb_true_iff in Hall.
        destruct Hall as [Hrow _]. rewrite (complete_row_location lower) in Hrow.
        destruct (location_of_row lower row) as [[k0 l0]|] eqn:Erow; [|discriminate].
        assert (Hin : In k0 (keys (@nil (string * Location)))).
        { apply Hkeys. right. unfold slugs, entries. cbn [flat_map].
          rewrite Erow. now left. }
        destruct Hin.
      * apply Hnd. constructor.
      * right. intros k l Hk. rewrite Hget in Hk. cbn [dict_get] in Hk.
        destruct (last_with_slug lower (row :: rest) k) as [l'|] eqn:E; [|discriminate].
        injection Hk as ->. now apply last_with_slug_key with (rows := row :: rest).
    + destruct (provider_run_incomplete lower (row :: rest) Hall []) as [e He].
      rewrite He. cbn [bind try_except].
      eexists _, _. split; [reflexivity | exact Hdef].
  - eexists _, _. split; [reflexivity | exact Hdef].
Qed.

(** On text that is ASCII throughout, str.lower turns A-Z into a-z and
    keeps every other character. *)
Hypothesis lower_on_ascii : forall s, is_ascii s = true -> lower s = ascii_lower s.

Lemma default_locations_keys (k : string) (l : Location) :
  dict_get DEFAULT_LOCATIONS k = Some l -> k = slug_of lower (name l).
Proof.
  unfold DEFAULT_LOCATIONS. cbn [dict_get].
  repeat (match goal with
          | |- context [String.eqb ?a k] =>
              destruct (String.eqb_spec a k) as [<-|_];
              [intros [= <-]; cbn [name]; unfold slug_of;
               rewrite lower_on_ascii by reflexivity; reflexivity|]
          end).
  discriminate.
Qed.

(** X3.  With str.lower acting on ASCII text as it does, the map the
    Provider returns is never empty, has no key twice, and files every
    location under the slug of its own name. *)
Theorem provider_map_well_keyed (get_records : result (list ConfigRow)) :
  exists locations log,
    get_active_locations lower get_records = Ok (locations, log) /\
    locations <> [] /\
    NoDup (keys locations) /\
    forall k l, dict_get locations k = Some l -> k = slug_of lower (name l).
Proof.
  destruct (provider_invariants get_records) as (locations & log & Hrun & Hne & Hnd & Hkey).
  exists locations, log. repeat split; try assumption.
  destruct Hkey as [-> | Hkey]; [apply default_locations_keys | exact Hkey].
Qed.

End ProviderMap.

(** X3, on a read that raises and on a read of two rows. *)
Lemma provider_map_well_keyed_witness :
  (exists log, get_active_locations ascii_lower (Raise DatabaseError)
               = Ok (DEFAULT_LOCATIONS, log)) /\
  (forall k l, dict_get DEFAULT_LOCATIONS k = Some l -> k = slug_of ascii_lower (name l)) /\
  (exists locations log,
     get_active_locations ascii_lower (Ok [new_york_row; paris_france]) = Ok (locations, log) /\
     locations <> [] /\
     forall k l, dict_get locations k = Some l -> k = slug_of ascii_lower (name l)).
Proof.
  pose proof (provider_map_well_keyed ascii_lower (fun _ _ => eq_refl)) as P.
  destruct (P (Raise DatabaseError)) as (l1 & g1 & H1 & _ & _ & K1).
  destruct (P (Ok [new_york_row; paris_france])) as (l2 & g2 & H2 & N2 & _ & K2).
  assert (E1 : l1 = DEFAULT_LOCATIONS).
  { cbv [get_active_locations bind try_except] in H1. now injection H1 as <- _. }
  subst l1.
  split; [now exists g1|]. split; [exact K1|].
  exists l2, g2. repeat split; assumption.
Defined.

(** ** More on the Weather Fetcher *)

Lemma dict_get_In {V} (d : dict V) (k : string) (v : V) :
  dict_get d k = Some v -> In (k, v) d.
Proof.
  induction d as [|[k0 v0] d IH]; cbn [dict_get In]; [discriminate|].
  destruct (String.eqb_spec k0 k) as [->|_].
  - intros [= ->]. now left.
  - intros H. right. now apply IH.
Qed.

Section FetcherLog.

Variable http_run : nat -> Endpoint -> http_outcome.

(** One iteration logs one line, an error exactly when the call gives no
    observation. *)
Lemma fetch_step_log (st : FetchState) (key : string) (location : Location) :
  exists st' e,
    fetch_step http_run st (key, location) = Ok st' /\
    fetch_log st' = (fetch_log st ++ [e])%list /\
    is_error e
    = negb (is_some (observation_of location
                       (http_run (List.length (requests_sent st)) (endpoint_of location)))).
Proof.
  unfold fetch_step, fetch_try, observation_of.
  destruct (http_run (List.length (requests_sent st)) (endpoint_of location))
    as [e|status json]; cbn [try_except].
  - eexists _, _. repeat split.
  - destruct (status =? 200).
    + destruct json as [[ | | | | | |d]|e]; cbn [bind py_get_default try_except];
        eexists _, _; repeat split.
    + destruct json as [[ | | | | | |d]|e]; cbn [try_except]; eexists _, _; repeat split.
Qed.

Lemma fetch_run_log (locations : dict Location) :
  forall st0 st,
    for_each (fetch_step http_run) locations st0 = Ok st ->
    List.length (fetch_log st) = (List.length (fetch_log st0) + List.length locations)%nat /\
    errors_logged (fetch_log st)
    + Z.of_nat (List.length (fetched http_run (List.length (requests_sent st0)) locations))
    = errors_logged (fetch_log st0) + Z.of_nat (List.length locations).
Proof.
  induction locations as [|[key location] rest IH]; intros st0 st; cbn [for_each fetched].
  - intros [= <-]. cbn [List.length]. split; lia.
  - destruct (fetch_step_log st0 key location) as (st1 & e & Hstep & Hlog & Herr).
    destruct (fetch_step_spec http_run st0 key location) as (st1' & Hstep' & Hreq & _).
    rewrite Hstep in Hstep'. injection Hstep' as <-.
    rewrite Hstep. cbn [bind]. intros Hrun.
    destruct (IH st1 st Hrun) as [Hlen Hcount].
    rewrite Hreq, length_app in Hcount. cbn [List.length] in Hcount.
    replace (List.length (requests_sent st0) + 1)%nat
      with (S (List.length (requests_sent st0))) in Hcount by lia.
    rewrite Hlog, errors_logged_app, errors_logged_one in Hcount.
    rewrite Hlog, length_app in Hlen. cbn [List.length] in *.
    split; [lia|].
    rewrite Herr in Hcount.
    destruct (observation_of location
                (http_run (List.length (requests_sent st0)) (endpoint_of location)));
      cbn [is_some negb List.length] in *; lia.
Qed.

(** X4.  The Fetcher logs one line per location, and every location ends
    up either in the map it returns or in an error line: entries plus
    errors make the number of locations. *)
Theorem fetcher_accounts_for_every_location (locations : dict Location) :
  NoDup (keys locations) ->
  exists st,
    extract_weather_data http_run locations = Ok st /\
    List.length (fetch_log st) = List.length locations /\
    Z.of_nat (List.length (weather_data st)) + errors_logged (fetch_log st)
    = Z.of_nat (List.length locations).
Proof.
  intros Hnd. unfold extract_weather_data.
  destruct (fetch_run_requests http_run locations (mkfetch [] [] [])) as (st & Hrun & _).
  exists st. split; [exact Hrun|].
  destruct (fetch_run_log locations _ _ Hrun) as [Hlen Hcount].
  rewrite (fetch_run_data http_run locations Hnd (mkfetch [] [] []) (fun k H => match H with end)
             st Hrun).
  cbn [fetch_log requests_sent weather_data List.length app] in *.
  change (errors_logged []) with 0 in Hcount. split; lia.
Qed.

Lemma fetched_location (locations : dict Location) :
  forall n k obs,
    In (k, obs) (fetched http_run n locations) -> In (k, raw_location obs) locations.
Proof.
  induction locations as [|[key location] rest IH]; intros n k obs; cbn [fetched In];
    [tauto|].
  destruct (observation_of location (http_run n (endpoint_of location))) as [o|] eqn:E.
  - intros [H|H].
    + injection H as <- <-. left. f_equal.
      unfold observation_of in E.
      destruct (http_run n (endpoint_of location)) as [|status [[ | | | | | |d]|]];
        try discriminate.
      destruct (status =? 200); [|discriminate]. now injection E as <-.
    + right. now apply IH with (n := S n).
  - intros H. right. now apply IH with (n := S n).
Qed.

Lemma fetched_nodup (locations : dict Location) :
  NoDup (keys locations) -> forall n, NoDup (keys (fetched http_run n locations)).
Proof.
  unfold keys. induction locations as [|[key location] rest IH]; intros Hnd n;
    cbn [fetched map fst] in *; [constructor|].
  inversion Hnd as [|? ? Hnotin Hnd']; subst.
  destruct (observation_of location (http_run n (endpoint_of location))).
  - cbn [map fst]. constructor; [|now apply IH].
    intros Hin. apply Hnotin. now apply (fetched_keys http_run rest (S n)).
  - now apply IH.
Qed.

Lemma fetched_keys_in_order (locations : dict Location) :
  NoDup (keys locations) ->
  forall n,
    keys (fetched http_run n locations)
    = filter (fun k => is_some (dict_get (fetched http_run n locations) k)) (keys locations).
Proof.
  unfold keys. induction locations as [|[key location] rest IH]; intros Hnd n;
    cbn [fetched map fst filter] in *; [reflexivity|].
  inversion Hnd as [|? ? Hnotin Hnd']; subst.
  destruct (observation_of location (http_run n (endpoint_of location))) as [o|].
  - cbn [map fst dict_get]. rewrite String.eqb_refl. cbn [is_some]. f_equal.
    rewrite (IH Hnd' (S n)) at 1. apply filter_ext_in.
    intros k Hk. destruct (String.eqb_spec key k) as [->|_]; [contradiction | reflexivity].
  - rewrite dict_get_not_key.
    + cbn [is_some]. now apply IH.
    + intros Hin. apply Hnotin. now apply (fetched_keys http_run rest (S n)).
Qed.

(** X5.  The map the Fetcher returns is a dict again (no key twice), lists
    its keys in the order of the location map, and holds under each key an
    observation that carries the location configured under that key. *)
Theorem fetcher_keeps_keys_and_locations (locations : dict Location) :
  NoDup (keys locations) ->
  exists st,
    extract_weather_data http_run locations = Ok st /\
    NoDup (keys (weather_data st)) /\
    keys (weather_data st)
    = filter (fun k => is_some (dict_get (weather_data st) k)) (keys locations) /\
    forall k obs,
      dict_get (weather_data st) k = Some obs ->
      dict_get locations k = Some (raw_location obs).
Proof.
  intros Hnd. unfold extract_weather_data.
  destruct (fetch_run_requests http_run locations (mkfetch [] [] [])) as (st & Hrun & _).
  exists st. split; [exact Hrun|].
  rewrite (fetch_run_data http_run locations Hnd (mkfetch [] [] []) (fun k H => match H with end)
             st Hrun).
  cbn [weather_data requests_sent List.length app].
  split; [now apply fetched_nodup|]. split; [now apply fetched_keys_in_order|].
  intros k obs Hget. apply dict_get_In in Hget. apply fetched_location in Hget.
  clear Hrun. revert Hnd Hget. unfold keys.
  induction locations as [|[k0 l0] rest IH]; cbn [map fst In dict_get]; [tauto|].
  intros Hnd [H|H]; inversion Hnd as [|? ? Hnotin Hnd']; subst.
  - injection H as -> ->. now rewrite String.eqb_refl.
  - destruct (String.eqb_spec k0 k) as [->|_]; [|now apply IH].
    exfalso. apply Hnotin. now apply (in_map fst) in H.
Qed.

End FetcherLog.

(** X4, on the three sample locations with the second call answered 503:
    two entries and one error line. *)
Lemma fetcher_accounts_for_every_location_witness :
  exists st,
    extract_weather_data sample_http_run three_locations = Ok st /\
    List.length (weather_data st) = 2%nat /\ errors_logged (fetch_log st) = 1.
Proof.
  assert (Hnd : NoDup (keys three_locations)).
  { cbn. repeat constructor; cbn; intuition discriminate. }
  destruct (fetcher_accounts_for_every_location sample_http_run three_locations Hnd)
    as (st & Hrun & _ & _).
  exists st. split; [exact Hrun|].
  vm_compute in Hrun. injection Hrun as <-. split; reflexivity.
Defined.

(** X5, on the same run: the keys in order, each with its own location. *)
Lemma fetcher_keeps_keys_and_locations_witness :
  exists st,
    extract_weather_data sample_http_run three_locations = Ok st /\
    keys (weather_data st) = ["london"; "tokyo"]%string /\
    option_map (fun o => name (raw_location o)) (dict_get (weather_data st) "tokyo")
    = Some "Tokyo"%string.
Proof.
  assert (Hnd : NoDup (keys three_locations)).
  { cbn. repeat constructor; cbn; intuition discriminate. }
  destruct (fetcher_keeps_keys_and_locations sample_http_run three_locations Hnd)
    as (st & Hrun & _ & _ & _).
  exists st. split; [exact Hrun|].
  vm_compute in Hrun. injection Hrun as <-. split; reflexivity.
Defined.

(** ** More on the Record Normalizer *)

(** X6.  Every Z of the string is replaced, not only a last one: the
    result holds no Z, a string without Z is left as it is, and the
    replacement goes through concatenation, so a final Z becomes +00:00. *)
Theorem replace_Z_everywhere (s : string) :
  has_char is_Z (replace_Z s) = false /\
  (has_char is_Z s = false -> replace_Z s = s) /\
  (forall t, replace_Z (s ++ t) = (replace_Z s ++ replace_Z t)%string) /\
  replace_Z (s ++ "Z") = (replace_Z s ++ "+00:00")%string.
Proof.
  assert (Happ : forall a t, replace_Z (a ++ t) = (replace_Z a ++ replace_Z t)%string).
  { induction a as [|c a IH]; intros t; cbn [replace_Z String.append]; [reflexivity|].
    rewrite IH. destruct (Ascii.eqb c "Z"); reflexivity. }
  split; [|split; [|split]].
  - induction s as [|c s IH]; [reflexivity|]. cbn [replace_Z].
    destruct (Ascii.eqb c "Z") eqn:E.
    + cbn [String.append has_char]. rewrite IH. reflexivity.
    + cbn [has_char]. unfold is_Z at 1. rewrite E, IH. reflexivity.
  - induction s as [|c s IH]; [reflexivity|]. cbn [replace_Z has_char].
    unfold is_Z at 1. destruct (Ascii.eqb c "Z"); [discriminate|].
    cbn [orb]. intros H. now rewrite IH.
  - apply Happ.
  - rewrite Happ. reflexivity.
Qed.

Lemma describe_code_float (fr : Q -> string) (q : Q) (z : Z) (d : string) :
  (q == inject_Z z)%Q -> codes_get weather_codes z = Some d ->
  describe_code fr (PFloat q) = Ok d.
Proof.
  intros Hq E.
  assert (Hred : Qred q = inject_Z z).
  { rewrite (Qred_complete _ _ Hq). apply Qcanon.Qred_identity. cbn. apply Z.gcd_1_r. }
  unfold describe_code. cbv zeta. rewrite Hred.
  change (Qden (inject_Z z)) with 1%positive. change (Qnum (inject_Z z)) with z.
  rewrite E. reflexivity.
Qed.

Section NormalizerFields.

Variable host : Host.
Variables cl cu : datetime.

Lemma resolve_timestamp_no_error (ts : pyval) :
  errors_logged (snd (resolve_timestamp host cl cu ts)) = 0.
Proof.
  unfold resolve_timestamp. destruct (truthy ts); [|reflexivity].
  destruct (parse_api_timestamp host cl cu ts); reflexivity.
Qed.

Lemma transform_try_no_error (data : RawObservation) :
  errors_logged (fst (transform_try host cl cu data)) = 0.
Proof.
  unfold transform_try.
  destruct (weather_code <- py_get_default (raw_current data) "weather_code" (PInt 0) ;;
            sunrise_time <- parse_sun_time host (raw_daily data) "sunrise" ;;
            sunset_time <- parse_sun_time host (raw_daily data) "sunset" ;;
            api_timestamp <- py_get (raw_current data) "time" ;;
            Ok (weather_code, sunrise_time, sunset_time, api_timestamp))
    as [[[[wc sr] ss] ts]|e]; [|reflexivity].
  pose proof (resolve_timestamp_no_error ts) as H.
  destruct (resolve_timestamp host cl cu ts) as [[l u] w]. exact H.
Qed.

Lemma transform_run_log (raw : dict RawObservation) :
  forall st0 st,
    for_each (transform_step host cl cu) raw st0 = Ok st ->
    Z.of_nat (List.length (transformed_records st)) + errors_logged (transform_log st)
    = Z.of_nat (List.length (transformed_records st0)) + errors_logged (transform_log st0)
      + Z.of_nat (List.length raw).
Proof.
  induction raw as [|[key data] raw IH]; intros st0 st; cbn [for_each].
  - intros [= <-]. cbn [List.length]. lia.
  - unfold transform_step at 1.
    pose proof (transform_try_no_error data) as Hw.
    destruct (transform_try host cl cu data) as [w [r|e]]; cbn [bind try_except fst] in *;
      intros Hrun; apply IH in Hrun; rewrite Hrun;
      cbn [transformed_records transform_log List.length];
      rewrite ?length_app, !errors_logged_app, errors_logged_one, Hw;
      cbn [is_error level List.length]; lia.
Qed.

(** X7.  The Normalizer returns for every input; it keeps, in the order of
    its input, the records of the observations whose try block ends well,
    and logs one error for each of the others: records plus errors make
    the number of observations. *)
Theorem normalizer_accounts_for_every_observation (raw : dict RawObservation) :
  exists st,
    transform_weather_data host cl cu raw = Ok st /\
    transformed_records st = records_of host cl cu raw /\
    Z.of_nat (List.length (transformed_records st)) + errors_logged (transform_log st)
    = Z.of_nat (List.length raw).
Proof.
  destruct (transform_weather_data_records host cl cu raw) as (st & Hrun & Hrec).
  exists st. split; [exact Hrun|]. split; [exact Hrec|].
  unfold transform_weather_data in Hrun. apply transform_run_log in Hrun.
  rewrite Hrun. reflexivity.
Qed.

(** X8.  A record is only built from an observation whose "current" and
    "daily" payloads are JSON objects; it then carries the location's
    name, country, coordinates and zone unchanged, each measurement as the
    value under its API name (None when the key is missing), the code
    under weather_code (0 when missing), and no visibility. *)
Theorem record_fields_pass_through (data : RawObservation) (w : list log_entry)
    (r : WeatherRecord) :
  transform_try host cl cu data = (w, Ok r) ->
  exists current daily,
    raw_current data = PDict current /\ raw_daily data = PDict daily /\
    city_name r = name (raw_location data) /\
    rec_country r = country (raw_location data) /\
    latitude r = lat (raw_location data) /\
    longitude r = lon (raw_location data) /\
    rec_timezone r = timezone (raw_location data) /\
    temperature r = get_or_none current "temperature_2m" /\
    feels_like r = get_or_none current "apparent_temperature" /\
    humidity r = get_or_none current "relative_humidity_2m" /\
    pressure r = get_or_none current "pressure_msl" /\
    windspeed r = get_or_none current "wind_speed_10m" /\
    winddirection r = get_or_none current "wind_direction_10m" /\
    cloud_cover r = get_or_none current "cloud_cover" /\
    visibility r = PNone /\
    weathercode r = match dict_get current "weather_code" with
                    | Some v => v
                    | None => PInt 0
                    end.
Proof.
  unfold transform_try.
  destruct (raw_current data) as [ | | | | | |current] eqn:Ec;
    cbn [py_get_default py_get bind]; try discriminate.
  destruct (raw_daily data) as [ | | | | | |daily] eqn:Ed;
    try (unfold parse_sun_time; cbn [py_get bind]; discriminate).
  destruct (parse_sun_time host (PDict daily) "sunrise") as [sr|]; cbn [bind];
    [|discriminate].
  destruct (parse_sun_time host (PDict daily) "sunset") as [ss|]; cbn [bind];
    [|discriminate].
  destruct (resolve_timestamp host cl cu _) as [[l u] w'].
  intros H. injection H as _ H.
  apply bind_Ok in H. destruct H as [uv [_ H]].
  apply bind_Ok in H. destruct H as [desc [_ H]].
  injection H as <-.
  exists current, daily. unfold get_or_none. repeat split.
Qed.

(** X9.  The uv_index field: None when daily has no uv_index_max, the
    first element when it is a non-empty list; when it is an empty list or
    null the try block raises and the location gives no record. *)
Theorem uv_index_edge_cases (data : RawObservation) (daily : dict pyval) :
  raw_daily data = PDict daily ->
  (forall w r, transform_try host cl cu data = (w, Ok r) ->
     match dict_get daily "uv_index_max" with
     | None => uv_index r = PNone
     | Some (PList (x :: _)) => uv_index r = x
     | _ => True
     end) /\
  (dict_get daily "uv_index_max" = Some (PList []) \/
   dict_get daily "uv_index_max" = Some PNone ->
   exists w e, transform_try host cl cu data = (w, Raise e)).
Proof.
  intros Ed. unfold transform_try. rewrite Ed.
  destruct (raw_current data) as [ | | | | | |current];
    cbn [py_get_default py_get bind];
    try (split; [discriminate | intros _; eexists _, _; reflexivity]).
  destruct (parse_sun_time host (PDict daily) "sunrise") as [sr|]; cbn [bind];
    [|split; [discriminate | intros _; eexists _, _; reflexivity]].
  destruct (parse_sun_time host (PDict daily) "sunset") as [ss|]; cbn [bind];
    [|split; [discriminate | intros _; eexists _, _; reflexivity]].
  destruct (resolve_timestamp host cl cu _) as [[l u] w']. split.
  - intros w r H. injection H as _ H.
    apply bind_Ok in H. destruct H as [uv [Huv H]].
    apply bind_Ok in H. destruct H as [desc [_ H]]. injection H as <-.
    cbn [uv_index].
    destruct (dict_get daily "uv_index_max") as [[ | | | | |[|x rest]| ]|];
      cbn [bind py_index0] in Huv; try exact I; now injection Huv.
  - intros [E|E]; rewrite E; cbn [bind py_index0]; eexists _, _; reflexivity.
Qed.

Lemma classify_naive (ts : pyval) (p : datetime) :
  classify host ts = Naive p -> tzinfo p = None.
Proof.
  unfold classify. destruct (truthy ts); [|discriminate].
  destruct ts as [ | | | |s| | ]; try discriminate.
  destruct (contains_char "T" s); [|discriminate].
  destruct (fromisoformat host (replace_Z s)) as [q|]; [|discriminate].
  destruct (tzinfo q) eqn:E; [discriminate|]. now intros [= <-].
Qed.

(** X10.  When the clock readings taken at entry are a naive local time
    and an aware UTC time, as get_local_now and get_utc_now give them,
    every record of the run has a naive timestamp and a timestamp_utc with
    offset zero. *)
Theorem timestamps_keep_their_zones (raw : dict RawObservation) :
  tzinfo cl = None -> tzinfo cu = Some 0 ->
  exists st,
    transform_weather_data host cl cu raw = Ok st /\
    forall r, In r (transformed_records st) ->
      tzinfo (timestamp r) = None /\ tzinfo (timestamp_utc r) = Some 0.
Proof.
  intros Hcl Hcu.
  destruct (transform_weather_data_records host cl cu raw) as (st & Hrun & Hrec).
  exists st. split; [exact Hrun|]. intros r Hr. rewrite Hrec in Hr.
  apply records_of_inv in Hr. destruct Hr as (key & data & w & _ & Htry).
  apply transform_try_timestamps in Htry. unfold timestamps_as_resolved in Htry.
  destruct (classify host (api_time data)) as [ | | | |p|p] eqn:Ecl;
    try (destruct Htry as [-> ->]; split; assumption).
  - destruct (astimezone_local (local_utcoffset host) p) as [l|];
      [destruct (astimezone_utc p) as [u|]|];
      try (destruct Htry as [-> ->]; split; assumption).
    destruct Htry as (-> & Hz & _ & -> & _). split; [reflexivity | exact Hz].
  - destruct Htry as (-> & _ & ->). split; [|reflexivity].
    now apply classify_naive with (ts := api_time data).
Qed.

(** X11.  When the timestamp block does not fall back, the local field
    reads the wall clock of the UTC field moved by the host's offset if
    the API timestamp carried a zone, and the very wall clock of the UTC
    field if it carried none, whatever the zone of the host. *)
Theorem local_wall_clock_against_utc (data : RawObservation) (w : list log_entry)
    (r : WeatherRecord) :
  transform_try host cl cu data = (w, Ok r) ->
  falls_back host (api_time data) = false ->
  wall_us (timestamp r)
  = wall_us (timestamp_utc r)
    + match classify host (api_time data) with
      | Aware _ => local_utcoffset host (wall_us (timestamp_utc r))
      | _ => 0
      end.
Proof.
  intros Htry Hfb. apply transform_try_timestamps in Htry.
  unfold timestamps_as_resolved in Htry. unfold falls_back in Hfb.
  destruct (classify host (api_time data)) as [ | | | |p|p]; try discriminate.
  - destruct (astimezone_local (local_utcoffset host) p) as [l|] eqn:El; [|discriminate].
    destruct (astimezone_utc p) as [u|] eqn:Eu; [|discriminate].
    destruct Htry as (-> & _ & _ & -> & _).
    unfold astimezone_local in El. apply bind_Ok in El. destruct El as [u' [Hu' Hl]].
    unfold astimezone_utc in Eu. rewrite Hu' in Eu. injection Eu as ->.
    apply wall_us_of_wall_us in Hl. destruct Hl as [Hl _].
    unfold wall_us at 1. cbn [replace_tzinfo year month day hour minute second microsecond].
    exact Hl.
  - destruct Htry as (-> & _ & ->). unfold wall_us.
    cbn [replace_tzinfo year month day hour minute second microsecond]. lia.
Qed.

(** X12.  A weather_code that is there but is no integer: null shows as
    "Unknown (None)", not as clear sky; true and false read as the codes 1
    and 0; a string shows inside "Unknown (...)"; a float equal to a code
    of the table reads as that code; a list or an object gives no
    record. *)
Theorem non_integer_weather_codes (data : RawObservation) (current : dict pyval)
    (w : list log_entry) (r : WeatherRecord) :
  raw_current data = PDict current ->
  transform_try host cl cu data = (w, Ok r) ->
  match dict_get current "weather_code" with
  | Some PNone => weather_description r = "Unknown (None)"%string
  | Some (PBool true) => weather_description r = "Mainly clear"%string
  | Some (PBool false) => weather_description r = "Clear sky"%string
  | Some (PStr s) => weather_description r = unknown s
  | Some (PFloat q) =>
      forall z, (q == inject_Z z)%Q -> In z (map fst weather_codes) ->
                weather_description r = describe_int z
  | Some (PList _) | Some (PDict _) => False
  | _ => True
  end.
Proof.
  intros Ec Htry. apply transform_try_inv in Htry.
  destruct Htry as (wc & ts & Hwc & _ & _ & _ & _ & _ & Hd).
  rewrite Ec in Hwc. cbn [py_get_default] in Hwc. injection Hwc as <-.
  destruct (dict_get current "weather_code") as [[ |[|]|z|q|s|l|d]|];
    try exact I;
    try (cbn [describe_code] in Hd; discriminate);
    try (cbn [describe_code] in Hd; now injection Hd).
  intros z Hq Hz.
  destruct (codes_get weather_codes z) as [d|] eqn:E.
  - rewrite (describe_code_float _ q z d Hq E) in Hd. injection Hd as <-.
    unfold describe_int. now rewrite E.
  - exfalso. revert E Hz. clear.
    induction weather_codes as [|[k v] t IH]; cbn [codes_get map fst In]; [tauto|].
    destruct (Z.eqb_spec k z); [discriminate|].
    intros E [H|H]; [contradiction | now apply IH].
Qed.

End NormalizerFields.

(** X8, on the first observation of the sample run. *)
Lemma record_fields_pass_through_witness :
  exists w r,
    transform_try host_kolkata sample_local_now sample_utc_now sample_observation
    = (w, Ok r) /\
    temperature r = PFloat (215 # 10) /\ humidity r = PNone /\ visibility r = PNone.
Proof.
  destruct (transform_try host_kolkata sample_local_now sample_utc_now sample_observation)
    as [w [r|e]] eqn:E; [|vm_compute in E; discriminate E].
  exists w, r. split; [reflexivity|].
  destruct (record_fields_pass_through _ _ _ _ w r E)
    as (current & daily & Hc & _ & _ & _ & _ & _ & _ & Ht & _ & Hh & _ & _ & _ & _ & Hv & _).
  injection Hc as <-. rewrite Ht, Hh, Hv. repeat split.
Defined.

(** X9, on observations with a one-element and with an empty
    uv_index_max. *)
Lemma uv_index_edge_cases_witness :
  (forall w r,
     transform_try host_kolkata sample_local_now sample_utc_now sample_observation
     = (w, Ok r) -> uv_index r = PFloat (6 # 1)) /\
  exists w e,
    transform_try host_kolkata sample_local_now sample_utc_now no_uv_observation
    = (w, Raise e).
Proof.
  split.
  - intros w r E.
    exact (proj1 (uv_index_edge_cases host_kolkata sample_local_now sample_utc_now
                    sample_observation _ eq_refl) w r E).
  - exact (proj2 (uv_index_edge_cases host_kolkata sample_local_now sample_utc_now
                    no_uv_observation _ eq_refl) (or_introl eq_refl)).
Defined.

(** X10, on the sample run. *)
Lemma timestamps_keep_their_zones_witness :
  exists st,
    transform_weather_data host_kolkata sample_local_now sample_utc_now sample_raw = Ok st /\
    List.length (transformed_records st) = 5%nat /\
    forall r, In r (transformed_records st) ->
      tzinfo (timestamp r) = None /\ tzinfo (timestamp_utc r) = Some 0.
Proof.
  destruct (timestamps_keep_their_zones host_kolkata sample_local_now sample_utc_now
              sample_raw eq_refl eq_refl) as (st & Hrun & Hzones).
  exists st. split; [exact Hrun|]. split; [|exact Hzones].
  vm_compute in Hrun. injection Hrun as <-. reflexivity.
Defined.

(** X11, on the first observation of the sample run: 15:30 local against
    10:00 UTC on a host at +05:30. *)
Lemma local_wall_clock_against_utc_witness :
  exists w r,
    transform_try host_kolkata sample_local_now sample_utc_now sample_observation
    = (w, Ok r) /\
    wall_us (timestamp r) = wall_us (timestamp_utc r) + 19800 * US_PER_SECOND.
Proof.
  destruct (transform_try host_kolkata sample_local_now sample_utc_now sample_observation)
    as [w [r|e]] eqn:E; [|vm_compute in E; discriminate E].
  exists w, r. split; [reflexivity|].
  exact (local_wall_clock_against_utc host_kolkata sample_local_now sample_utc_now
           sample_observation w r E eq_refl).
Defined.

(** X12, on an observation whose weather_code is null. *)
Lemma non_integer_weather_codes_witness :
  exists w r,
    transform_try host_kolkata sample_local_now sample_utc_now null_code_observation
    = (w, Ok r) /\
    weather_description r = "Unknown (None)"%string.
Proof.
  destruct (transform_try host_kolkata sample_local_now sample_utc_now null_code_observation)
    as [w [r|e]] eqn:E; [|vm_compute in E; discriminate E].
  exists w, r. split; [reflexivity|].
  exact (non_integer_weather_codes host_kolkata sample_local_now sample_utc_now
           null_code_observation _ w r eq_refl E).
Defined.

(** ** More on the Record Loader *)

Lemma count_true_app (a b : list bool) : count_true (a ++ b) = count_true a + count_true b.
Proof. unfold count_true. rewrite filter_app, length_app. lia. Qed.

Lemma count_false_app (a b : list bool) :
  count_false (a ++ b) = count_false a + count_false b.
Proof. unfold count_false. rewrite filter_app, length_app. lia. Qed.

Section LoaderRuns.

Context {DB : Type} (pg_run : DB -> WeatherRecord -> result DB).

(** What the task returns on a non-empty sequence, by the replay of its
    inserts. *)
Lemma load_nonempty (d0 : DB) (records : list WeatherRecord) :
  records <> [] ->
  exists out,
    load_weather_data pg_run d0 records = Ok out /\
    load_result out
    = [("loaded_records"%string, count_true (fst (replay pg_run d0 records)));
       ("failed_records"%string, count_false (fst (replay pg_run d0 records)));
       ("total_records"%string, Z.of_nat (List.length records))] /\
    db_after out = snd (replay pg_run d0 records) /\
    inserts out = records /\
    errors_logged (log_lines out) = count_false (fst (replay pg_run d0 records)).
Proof.
  intros Hne. destruct records as [|r0 rest]; [contradiction|].
  unfold load_weather_data.
  destruct (load_run pg_run (r0 :: rest) (mkload d0 0 0 [] []))
    as (st & Hrun & Hdb & Hl & Hf & Hi & He).
  rewrite Hrun. cbn [bind]. eexists. split; [reflexivity|].
  cbn [load_result db_after inserts log_lines db loaded_records failed_records
       inserts_attempted load_log app] in *.
  rewrite Hl, Hf, Hdb, Hi, errors_logged_app, errors_logged_one, He.
  cbn [is_error level]. change (errors_logged []) with 0.
  repeat split; f_equal; lia.
Qed.

Lemma replay_app (l1 l2 : list WeatherRecord) :
  forall d,
    replay pg_run d (l1 ++ l2)
    = (fst (replay pg_run d l1) ++ fst (replay pg_run (snd (replay pg_run d l1)) l2),
       snd (replay pg_run (snd (replay pg_run d l1)) l2))%list.
Proof.
  induction l1 as [|r l1 IH]; intros d; cbn [app replay fst snd].
  - now destruct (replay pg_run d l2).
  - destruct (pg_run d r) as [d'|e].
    + rewrite IH. destruct (replay pg_run d' l1) as [b1 d1]. reflexivity.
    + rewrite IH. destruct (replay pg_run d l1) as [b1 d1]. reflexivity.
Qed.

Lemma replay_all_succeed (records : list WeatherRecord) :
  (forall d r, In r records -> exists d', pg_run d r = Ok d') ->
  forall d, count_false (fst (replay pg_run d records)) = 0.
Proof.
  induction records as [|r rest IH]; intros Hok d; cbn [replay]; [reflexivity|].
  destruct (Hok d r (or_introl eq_refl)) as [d' ->].
  specialize (IH (fun d0 r0 H => Hok d0 r0 (or_intror H)) d').
  destruct (replay pg_run d' rest) as [bs df]. cbn [fst] in *.
  rewrite count_false_cons. lia.
Qed.

Lemma replay_all_fail (records : list WeatherRecord) :
  (forall d r, In r records -> exists e, pg_run d r = Raise e) ->
  forall d, count_true (fst (replay pg_run d records)) = 0.
Proof.
  induction records as [|r rest IH]; intros Hbad d; cbn [replay]; [reflexivity|].
  destruct (Hbad d r (or_introl eq_refl)) as [e ->].
  specialize (IH (fun d0 r0 H => Hbad d0 r0 (or_intror H)) d).
  destruct (replay pg_run d rest) as [bs df]. cbn [fst] in *.
  rewrite count_true_cons. lia.
Qed.

(** X13.  On a non-empty sequence: when no insert can fail, every record
    is loaded, none is counted as failed and no error is logged; when
    every insert fails, nothing is loaded, every record is counted as
    failed, and the task still returns. *)
Theorem loader_all_or_nothing (d0 : DB) (records : list WeatherRecord) :
  records <> [] ->
  exists out,
    load_weather_data pg_run d0 records = Ok out /\
    ((forall d r, In r records -> exists d', pg_run d r = Ok d') ->
     counter (load_result out) "loaded_records" = Z.of_nat (List.length records) /\
     counter (load_result out) "failed_records" = 0 /\
     errors_logged (log_lines out) = 0) /\
    ((forall d r, In r records -> exists e, pg_run d r = Raise e) ->
     counter (load_result out) "loaded_records" = 0 /\
     counter (load_result out) "failed_records" = Z.of_nat (List.length records) /\
     errors_logged (log_lines out) = Z.of_nat (List.length records)).
Proof.
  intros Hne. destruct (load_nonempty d0 records Hne) as (out & Hrun & Hres & _ & _ & He).
  exists out. split; [exact Hrun|].
  pose proof (counts_total (fst (replay pg_run d0 records))) as (Hsum & _ & _).
  rewrite replay_length in Hsum.
  rewrite Hres, He. unfold counter. cbn [dict_get String.eqb Ascii.eqb Bool.eqb].
  split; intros H.
  - rewrite (replay_all_succeed records H d0) in *. repeat split; lia.
  - rewrite (replay_all_fail records H d0) in *. repeat split; lia.
Qed.

(** X14.  Loading two non-empty batches one after the other is loading
    their concatenation: the same inserts in the same order, the same
    store at the end, and counters that add up. *)
Theorem loader_batches_compose (d0 : DB) (l1 l2 : list WeatherRecord) :
  l1 <> [] -> l2 <> [] ->
  exists o1 o2 o,
    load_weather_data pg_run d0 l1 = Ok o1 /\
    load_weather_data pg_run (db_after o1) l2 = Ok o2 /\
    load_weather_data pg_run d0 (l1 ++ l2) = Ok o /\
    inserts o = (inserts o1 ++ inserts o2)%list /\
    db_after o = db_after o2 /\
    forall k, counter (load_result o) k
              = counter (load_result o1) k + counter (load_result o2) k.
Proof.
  intros H1 H2.
  assert (H12 : (l1 ++ l2)%list <> []) by (destruct l1; [contradiction | discriminate]).
  destruct (load_nonempty d0 l1 H1) as (o1 & R1 & E1 & D1 & I1 & _).
  destruct (load_nonempty (db_after o1) l2 H2) as (o2 & R2 & E2 & D2 & I2 & _).
  destruct (load_nonempty d0 (l1 ++ l2) H12) as (o & R & E & D & I & _).
  exists o1, o2, o. repeat (split; [assumption|]).
  rewrite I, I1, I2. split; [reflexivity|]. rewrite D, D2, D1.
  rewrite replay_app in *. cbn [fst snd] in *. split; [reflexivity|].
  intros k. rewrite E, E1, E2, D1. unfold counter. cbn [dict_get].
  rewrite count_true_app, count_false_app, length_app, Nat2Z.inj_add.
  destruct (String.eqb "loaded_records" k); [reflexivity|].
  destruct (String.eqb "failed_records" k); [reflexivity|].
  destruct (String.eqb "total_records" k); reflexivity.
Qed.

End LoaderRuns.

(** X13, on the sample store with four cities it accepts. *)
Lemma loader_all_or_nothing_witness :
  exists out,
    load_weather_data sample_pg_run []
      (map sample_record ["Paris"; "Tokyo"; "Lima"; "Oslo"]%string) = Ok out /\
    counter (load_result out) "loaded_records" = 4 /\
    counter (load_result out) "failed_records" = 0.
Proof.
  assert (Hne : map sample_record ["Paris"; "Tokyo"; "Lima"; "Oslo"]%string <> [])
    by discriminate.
  destruct (@loader_all_or_nothing _ sample_pg_run []
              (map sample_record ["Paris"; "Tokyo"; "Lima"; "Oslo"]%string) Hne)
    as (out & Hrun & Hall & _).
  exists out. split; [exact Hrun|].
  destruct Hall as (Hl & Hf & _).
  - intros d r Hin. cbn [map In] in Hin.
    repeat (destruct Hin as [<-|Hin]; [eexists; reflexivity|]). destruct Hin.
  - split; assumption.
Defined.

(** X14, on the five sample records cut after the second. *)
Lemma loader_batches_compose_witness :
  exists o1 o2 o,
    load_weather_data sample_pg_run [] (firstn 2 five_records) = Ok o1 /\
    load_weather_data sample_pg_run (db_after o1) (skipn 2 five_records) = Ok o2 /\
    load_weather_data sample_pg_run [] five_records = Ok o /\
    db_after o = db_after o2 /\
    counter (load_result o) "failed_records"
    = counter (load_result o1) "failed_records" + counter (load_result o2) "failed_records".
Proof.
  assert (H1 : firstn 2 five_records <> []) by discriminate.
  assert (H2 : skipn 2 five_records <> []) by discriminate.
  destruct (@loader_batches_compose _ sample_pg_run [] _ _ H1 H2)
    as (o1 & o2 & o & R1 & R2 & R & _ & Hdb & Hcount).
  exists o1, o2, o.
  split; [exact R1|]. split; [exact R2|]. split; [exact R|].
  split; [exact Hdb | apply Hcount].
Defined.

(** ** More on the Summary Reporter *)

Lemma Qfloor_unique (x : Q) (n : Z) :
  (inject_Z n <= x)%Q -> (x < inject_Z (n + 1))%Q -> Qfloor x = n.
Proof.
  intros Hlo Hhi.
  pose proof (Qfloor_le x) as Hf1. pose proof (Qlt_floor x) as Hf2.
  assert (H1 : (inject_Z n < inject_Z (Qfloor x + 1))%Q) by (eapply Qle_lt_trans; eassumption).
  assert (H2 : (inject_Z (Qfloor x) < inject_Z (n + 1))%Q) by (eapply Qle_lt_trans; eassumption).
  rewrite <- Zlt_Qlt in H1, H2. lia.
Qed.

Lemma round_half_even_integer (x : Q) (k : Z) :
  (x == inject_Z k)%Q -> round_half_even x = k.
Proof.
  intros Hx. unfold round_half_even.
  assert (Hf : Qfloor x = k).
  { apply Qfloor_unique; rewrite Hx; [apply Qle_refl|].
    rewrite <- Zlt_Qlt. lia. }
  assert (Hg : Qfloor (2 * x) = 2 * k).
  { apply Qfloor_unique; rewrite Hx.
    - rewrite inject_Z_mult. apply Qle_refl.
    - rewrite inject_Z_plus, inject_Z_mult.
      change (inject_Z 2) with 2%Q. change (inject_Z 1) with 1%Q. lra. }
  rewrite Hf, Hg. replace (2 * k - 2 * k) with 0 by lia. reflexivity.
Qed.

(** X15.  An average that is a non-zero multiple of 0.01 shows in the
    summary as that multiple: rounding does not move it. *)
Theorem two_decimal_average_is_kept (q : Q) (k : Z) :
  (q == k # 100)%Q -> k <> 0 -> rounded_if_truthy (Some q) = Some (k # 100).
Proof.
  intros Hq Hk. unfold rounded_if_truthy.
  destruct (Qeq_bool q 0) eqn:E.
  - apply Qeq_bool_iff in E. rewrite Hq in E. unfold Qeq in E. cbn in E. lia.
  - unfold round2. f_equal. f_equal. apply round_half_even_integer.
    rewrite Hq. unfold Qeq. cbn [Qnum Qden Qmult inject_Z]. lia.
Qed.

(** X15, on an average temperature of 21.5. *)
Lemma two_decimal_average_is_kept_witness :
  rounded_if_truthy (Some (215 # 10)) = Some (2150 # 100).
Proof.
  apply (two_decimal_average_is_kept (215 # 10) 2150); [reflexivity | discriminate].
Defined.

(** X16.  An average that is not zero but lies within 0.005 of it shows
    as 0.00, not as None: only the exact zero is taken for no data. *)
Theorem tiny_average_shows_as_zero (q : Q) :
  ~ (q == 0)%Q -> (Qabs q < 1 # 200)%Q -> rounded_if_truthy (Some q) = Some (0 # 100).
Proof.
  intros Hnz Hsmall. unfold rounded_if_truthy.
  destruct (Qeq_bool q 0) eqn:E; [apply Qeq_bool_iff in E; contradiction|].
  unfold round2. f_equal. f_equal.
  apply Qabs_Qlt_condition in Hsmall. destruct Hsmall as [Hlo Hhi].
  unfold round_half_even.
  destruct (Qlt_le_dec (q * 100) 0) as [Hneg|Hpos].
  - assert (Hf : Qfloor (q * 100) = -1).
    { apply Qfloor_unique;
        [change (inject_Z (-1)) with (-1)%Q | change (inject_Z (-1 + 1)) with 0%Q]; lra. }
    assert (Hg : Qfloor (2 * (q * 100)) = -1).
    { apply Qfloor_unique;
        [change (inject_Z (-1)) with (-1)%Q | change (inject_Z (-1 + 1)) with 0%Q]; lra. }
    rewrite Hf, Hg. change (-1 - 2 * -1 =? 0) with false. cbv iota.
    change (inject_Z (2 * -1 + 1)) with (-1)%Q.
    destruct (Qeq_bool (2 * (q * 100)) (-1)) eqn:T; [|reflexivity].
    apply Qeq_bool_iff in T. lra.
  - assert (Hf : Qfloor (q * 100) = 0).
    { apply Qfloor_unique;
        [change (inject_Z 0) with 0%Q | change (inject_Z (0 + 1)) with 1%Q]; lra. }
    assert (Hg : Qfloor (2 * (q * 100)) = 0).
    { apply Qfloor_unique;
        [change (inject_Z 0) with 0%Q | change (inject_Z (0 + 1)) with 1%Q]; lra. }
    rewrite Hf, Hg. reflexivity.
Qed.

(** X16, on an average of 0.001. *)
Lemma tiny_average_shows_as_zero_witness :
  rounded_if_truthy (Some (1 # 1000)) = Some (0 # 100).
Proof.
  apply tiny_average_shows_as_zero.
  - intros H. discriminate H.
  - reflexivity.
Defined.

(** ** More on the Quality Checker *)

Lemma filter_filter_implied {A} (f g : A -> bool) (l : list A) :
  (forall x, f x = true -> g x = true) -> filter f (filter g l) = filter f l.
Proof.
  intros Himp. induction l as [|x l IH]; cbn [filter]; [reflexivity|].
  destruct (g x) eqn:G; cbn [filter].
  - now rewrite IH.
  - destruct (f x) eqn:F; [|exact IH]. apply Himp in F. congruence.
Qed.

Lemma filter_none {A} (f : A -> bool) (l : list A) :
  (forall x, In x l -> f x = false) -> filter f l = [].
Proof.
  induction l as [|x l IH]; cbn [filter]; [reflexivity|]. intros H.
  rewrite (H x (or_introl eq_refl)). apply IH. intros y Hy. apply H. now right.
Qed.

Lemma data_quality_check_timestamps (snap1 snap2 : Snapshot) (now_utc : datetime)
    (load_result : dict Z) :
  exists q,
    data_quality_check (Ok snap1) (Ok snap2) now_utc load_result = Ok q /\
    utc_timestamp_check q
    = mkutccheck (Z.of_nat (List.length (window 24 snap1)))
        (count_when (in_future snap1) (window 24 snap1))
        (count_when (too_old snap1) (window 24 snap1))
        (count_when (in_future snap1) (window 24 snap1) =? 0) /\
    all_passed q
    = (utc_passed (utc_timestamp_check q) && temp_passed (temperature_check q))%bool /\
    overall_score q
    = (if all_passed q then "2/2"
       else if (utc_passed (utc_timestamp_check q) || temp_passed (temperature_check q))%bool
            then "1/2" else "0/2")%string.
Proof.
  unfold data_quality_check, utc_check_query, temp_check_query. cbn [bind].
  eexists. split; [reflexivity|].
  cbn [utc_timestamp_check temperature_check all_passed overall_score utc_passed temp_passed].
  split; [reflexivity|].
  destruct (count_when (in_future snap1) (filter (within_hours 24 snap1) (rows snap1)) =? 0);
    destruct (count_when extreme (filter (within_hours 1 snap2) (rows snap2)) =? 0);
    split; reflexivity.
Qed.

(** X17.  The timestamp check looks at every row of the table, whatever
    its age: it fails exactly when some row lies after NOW(), and
    future_records counts all such rows; its old_records is always zero,
    since no row of the last 24 hours is older than 7 days. *)
Theorem timestamp_check_semantics (snap1 snap2 : Snapshot) (now_utc : datetime)
    (load_result : dict Z) :
  exists q,
    data_quality_check (Ok snap1) (Ok snap2) now_utc load_result = Ok q /\
    future_records (utc_timestamp_check q) = count_when (in_future snap1) (rows snap1) /\
    (utc_passed (utc_timestamp_check q) = false <->
     exists r, In r (rows snap1) /\ in_future snap1 r = true) /\
    old_records (utc_timestamp_check q) = 0 /\
    0 <= future_records (utc_timestamp_check q) <= utc_total_records (utc_timestamp_check q).
Proof.
  destruct (data_quality_check_timestamps snap1 snap2 now_utc load_result)
    as (q & Hrun & Hq & _).
  exists q. split; [exact Hrun|]. rewrite Hq.
  cbn [future_records utc_passed old_records utc_total_records].
  assert (Hfut : count_when (in_future snap1) (window 24 snap1)
                 = count_when (in_future snap1) (rows snap1)).
  { unfold count_when, window. rewrite filter_filter_implied; [reflexivity|].
    intros r. unfold in_future, within_hours, HOUR, US_PER_SECOND.
    destruct (col_timestamp_utc r); [|discriminate]. intros H.
    apply Z.ltb_lt in H. apply Z.leb_le. lia. }
  split; [exact Hfut|]. split; [|split].
  - rewrite Hfut, Z.eqb_neq, count_when_zero. split.
    + intros Hnot. destruct (existsb (in_future snap1) (rows snap1)) eqn:E.
      * apply existsb_exists in E. exact E.
      * exfalso. apply Hnot. intros r Hin.
        rewrite <- Bool.not_true_iff_false in E |- *. intros He. apply E.
        apply existsb_exists. now exists r.
    + intros [r [Hin He]] Hall. specialize (Hall r Hin). congruence.
  - unfold count_when, window. rewrite filter_none; [reflexivity|].
    intros r Hin. apply filter_In in Hin. destruct Hin as [_ Hw].
    unfold too_old, within_hours, HOUR, US_PER_SECOND in *.
    destruct (col_timestamp_utc r); [|reflexivity].
    apply Z.leb_le in Hw. apply Z.ltb_ge. lia.
  - unfold count_when. split; [lia|].
    apply Nat2Z.inj_le. apply filter_length_le.
Qed.

(** X18.  The check returns exactly when both queries answer; all_passed
    is then the conjunction of the two checks, and the score reads "2/2",
    "1/2" or "0/2" by the number of checks that passed. *)
Theorem quality_score_reflects_checks (r1 r2 : result Snapshot) (now_utc : datetime)
    (load_result : dict Z) :
  ((exists q, data_quality_check r1 r2 now_utc load_result = Ok q) <->
   (exists s1 s2, r1 = Ok s1 /\ r2 = Ok s2)) /\
  forall q,
    data_quality_check r1 r2 now_utc load_result = Ok q ->
    all_passed q
    = (utc_passed (utc_timestamp_check q) && temp_passed (temperature_check q))%bool /\
    overall_score q
    = (if all_passed q then "2/2"
       else if (utc_passed (utc_timestamp_check q) || temp_passed (temperature_check q))%bool
            then "1/2" else "0/2")%string.
Proof.
  split.
  - split.
    + intros [q Hq]. unfold data_quality_check in Hq.
      destruct r1 as [s1|e1]; [|discriminate]. cbn [bind] in Hq.
      destruct (utc_check_query s1) as [[t f] o].
      destruct r2 as [s2|e2]; [|discriminate]. now exists s1, s2.
    + intros (s1 & s2 & -> & ->).
      destruct (data_quality_check_timestamps s1 s2 now_utc load_result) as (q & Hq & _).
      now exists q.
  - intros q Hq.
    destruct r1 as [s1|e1]; [|discriminate].
    destruct r2 as [s2|e2];
      [|unfold data_quality_check in Hq; cbn [bind] in Hq;
        destruct (utc_check_query s1) as [[t f] o]; discriminate].
    destruct (data_quality_check_timestamps s1 s2 now_utc load_result)
      as (q' & Hq' & _ & Hall & Hscore).
    rewrite Hq in Hq'. injection Hq' as <-. split; assumption.
Qed.

(** X18, on the table whose fresh row reads 85 degrees: one check of two
    passes. *)
Lemma quality_score_reflects_checks_witness :
  exists q,
    data_quality_check (Ok fresh_snapshot) (Ok fresh_snapshot) sample_utc_now [] = Ok q /\
    all_passed q = false /\ overall_score q = "1/2"%string.
Proof.
  destruct (data_quality_check (Ok fresh_snapshot) (Ok fresh_snapshot) sample_utc_now [])
    as [q|e] eqn:E; [|vm_compute in E; discriminate E].
  exists q. split; [reflexivity|].
  destruct (proj2 (quality_score_reflects_checks (Ok fresh_snapshot) (Ok fresh_snapshot)
                     sample_utc_now []) q E) as [Hall Hscore].
  rewrite Hscore, Hall. vm_compute in E. injection E as <-. split; reflexivity.
Defined.

(** ** The tasks wired together *)

Lemma fetched_length (http_run : nat -> Endpoint -> http_outcome)
    (locations : dict Location) :
  forall n, (List.length (fetched http_run n locations) <= List.length locations)%nat.
Proof.
  induction locations as [|[key location] rest IH]; intros n; cbn [fetched List.length];
    [lia|].
  specialize (IH (S n)).
  destruct (observation_of location (http_run n (endpoint_of location)));
    cbn [List.length]; lia.
Qed.

Lemma records_of_length (host : Host) (cl cu : datetime) (raw : dict RawObservation) :
  (List.length (records_of host cl cu raw) <= List.length raw)%nat.
Proof.
  unfold records_of. induction raw as [|[key data] raw IH]; cbn [flat_map List.length];
    [lia|].
  rewrite length_app.
  destruct (snd (transform_try host cl cu (snd (key, data)))); cbn [List.length]; lia.
Qed.

Section Pipeline.

Context {DB : Type}.
Variable lower : string -> string.
Variable get_records : result (list ConfigRow).
Variable http_run : nat -> Endpoint -> http_outcome.
Variable host : Host.
Variables cl cu : datetime.
Variable pg_run : DB -> WeatherRecord -> result DB.

(** X19.  Whatever the configuration store, the API and the weather table
    do, the four tasks from the Provider to the Loader run through: each
    returns and hands its result on; the Loader is given the Normalizer's
    records, which are no more than the observations fetched, which are no
    more than the locations provided; and loaded plus failed is the number
    of records. *)
Theorem etl_load_always_returns (d0 : DB) :
  exists locations log raw st out,
    get_active_locations lower get_records = Ok (locations, log) /\
    extract_weather_data http_run locations = Ok raw /\
    transform_weather_data host cl cu (weather_data raw) = Ok st /\
    load_weather_data pg_run d0 (transformed_records st) = Ok out /\
    etl_load lower get_records http_run host cl cu pg_run d0 = Ok out /\
    inserts out = transformed_records st /\
    (List.length (transformed_records st) <= List.length (weather_data raw)
     <= List.length locations)%nat /\
    counter (load_result out) "loaded_records" + counter (load_result out) "failed_records"
    = Z.of_nat (List.length (transformed_records st)).
Proof.
  destruct (provider_invariants lower get_records) as (locations & log & Hprov & _ & Hnd & _).
  destruct (fetch_run_requests http_run locations (mkfetch [] [] [])) as (raw & Hfetch & _).
  pose proof (fetch_run_data http_run locations Hnd (mkfetch [] [] [])
                (fun k H => match H with end) raw Hfetch) as Hraw.
  cbn [weather_data requests_sent List.length app] in Hraw.
  destruct (transform_weather_data_records host cl cu (weather_data raw))
    as (st & Htrans & Hrec).
  assert (Hload : exists out,
             load_weather_data pg_run d0 (transformed_records st) = Ok out /\
             inserts out = transformed_records st /\
             counter (load_result out) "loaded_records"
             + counter (load_result out) "failed_records"
             = Z.of_nat (List.length (transformed_records st))).
  { destruct (transformed_records st) as [|r0 rest] eqn:E.
    - eexists. split; [reflexivity|]. split; reflexivity.
    - destruct (load_nonempty pg_run d0 (r0 :: rest)) as (out & Hrun & Hres & _ & Hins & _);
        [discriminate|].
      exists out. split; [exact Hrun|]. split; [exact Hins|].
      rewrite Hres. unfold counter. cbn [dict_get String.eqb Ascii.eqb Bool.eqb].
      pose proof (counts_total (fst (replay pg_run d0 (r0 :: rest)))) as (Hsum & _ & _).
      rewrite replay_length in Hsum. exact Hsum. }
  destruct Hload as (out & Hload & Hins & Hcount).
  exists locations, log, raw, st, out.
  split; [exact Hprov|]. split; [exact Hfetch|]. split; [exact Htrans|].
  split; [exact Hload|]. split; [|split; [exact Hins|split; [|exact Hcount]]].
  - unfold etl_load. rewrite Hprov. cbn [bind fst].
    unfold extract_weather_data in Hfetch |- *. rewrite Hfetch. cbn [bind].
    rewrite Htrans. cbn [bind]. exact Hload.
  - rewrite Hrec, Hraw. split; [apply records_of_length | apply fetched_length].
Qed.

(** X20.  A location whose call is answered 200 with an empty JSON object
    still gives a record: it carries the location, no measurement, no
    sunrise or sunset, the code 0 with "Clear sky", and the two clock
    readings taken at the Normalizer's entry. *)
Theorem empty_forecast_still_gives_a_record (key : string) (location : Location) :
  http_run 0%nat (endpoint_of location) = HttpResponse 200 (Ok (PDict [])) ->
  exists raw st,
    extract_weather_data http_run [(key, location)] = Ok raw /\
    transform_weather_data host cl cu (weather_data raw) = Ok st /\
    transformed_records st
    = [mkrecord (name location) (country location) (lat location) (lon location)
         PNone PNone PNone PNone PNone PNone PNone PNone PNone (PInt 0) "Clear sky"
         None None (timezone location) cl cu].
Proof.
  intros Hcall.
  unfold extract_weather_data, for_each, fetch_step, fetch_try.
  cbn [requests_sent List.length]. rewrite Hcall.
  eexists _, _. split; [reflexivity|]. split; reflexivity.
Qed.

End Pipeline.

(** X20, on the first default location and an API that answers every call
    with an empty object. *)
Lemma empty_forecast_still_gives_a_record_witness :
  exists raw st,
    extract_weather_data (fun _ _ => HttpResponse 200 (Ok (PDict [])))
      (firstn 1 DEFAULT_LOCATIONS) = Ok raw /\
    transform_weather_data host_kolkata sample_local_now sample_utc_now (weather_data raw)
    = Ok st /\
    map weather_description (transformed_records st) = ["Clear sky"%string] /\
    map timestamp_utc (transformed_records st) = [sample_utc_now].
Proof.
  destruct (empty_forecast_still_gives_a_record
              (fun _ _ => HttpResponse 200 (Ok (PDict [])))
              host_kolkata sample_local_now sample_utc_now "london"
              (mkloc "London" (Some "United Kingdom"%string) (515074 # 10000)
                     (-1278 # 10000) (Some "Europe/London"%string)) eq_refl)
    as (raw & st & Hfetch & Htrans & Hrec).
  exists raw, st. split; [exact Hfetch|]. split; [exact Htrans|].
  rewrite Hrec. split; reflexivity.
Defined.
